(** * benchmark.py: solver adapters, output capture and the solver loop

    A shallow embedding of [benchmark.py].  The four solver libraries
    (gurobipy, highspy, pyscipopt, mip), the clock, the working directory,
    the interpreter's standard-output stream and the Streamlit page are the
    environment of the script: the libraries are given as tables of API-call
    outcomes, the rest is the state threaded through every statement. *)

From Stdlib Require Import ZArith Floats.
From stdpp Require Import gmap strings list pretty.

(** ** Python values, exceptions and outcomes *)

(** The values the adapters put in a record: [None], ints, floats, strings
    and opaque library objects (an enum member such as mip's
    [OptimizationStatus.OPTIMAL]), known by their [repr]. *)
Inductive pyval :=
| PNone
| PInt (z : Z)
| PFloat (x : float)
| PStr (s : string)
| PObj (repr : string).

Inductive exn :=
| KeyError (key : pyval)
| IndexError
| FileNotFoundError (path : string)
| ValueError (msg : string)
| LibraryError (cls msg : string).

Inductive result (A : Type) :=
| Ok (a : A)
| Raise (e : exn).
Arguments Ok {A} a.
Arguments Raise {A} e.

(** The dict every adapter returns: seven fixed keys. *)
Record result_record := {
  solver : string;
  time : pyval;
  iterations : pyval;
  nodes : pyval;
  gap : pyval;
  objective : pyval;
  status : pyval;
}.

(** ** The state of the process *)

(** The callables handed to [st_capture] as [output_func]: the bound
    [code] method of a placeholder made by [st.empty()]. *)
Inductive callable :=
| CodeOf (ph : nat).

(** A [StringIO] object: its buffer, the instance attribute [write] when it
    has been replaced by [new_write] (holding the [output_func] the closure
    captured), and whether it was closed. *)
Record stringio := {
  getvalue : string;
  write_attr : option callable;
  closed : bool;
}.

(** What [sys.stdout] points to. *)
Inductive stream :=
| Console
| Buffer (id : nat).

(** The chart handed to [st.altair_chart]. *)
Record chart := {
  chart_data : list result_record;
  encode_x : string;
  encode_y : string;
  color_field : string;
  scale_domain : list string;
  scale_range : list string;
}.

(** What the page was asked to show, in order. *)
Inductive ui_event :=
| UiTabs (labels : list string)
| UiEmpty (tab : nat) (ph : nat)
| UiPlaceholderCode (ph : nat) (text : string)
| UiCode (tab : nat) (text : string)
| UiDataframe (tab : nat) (rows : list result_record)
| UiAltairChart (tab : nat) (c : chart).

Record world := {
  clock : float;
  files : gmap string string;
  sys_stdout : stream;
  console : list string;
  heap : list stringio;
  ui_log : list ui_event;
  results_list : list result_record;
}.

Definition set_clock (t : float) (w : world) : world :=
  {| clock := t; files := files w; sys_stdout := sys_stdout w;
     console := console w; heap := heap w; ui_log := ui_log w;
     results_list := results_list w |}.

Definition set_files (f : gmap string string) (w : world) : world :=
  {| clock := clock w; files := f; sys_stdout := sys_stdout w;
     console := console w; heap := heap w; ui_log := ui_log w;
     results_list := results_list w |}.

Definition set_sys_stdout (s : stream) (w : world) : world :=
  {| clock := clock w; files := files w; sys_stdout := s;
     console := console w; heap := heap w; ui_log := ui_log w;
     results_list := results_list w |}.

Definition set_console (c : list string) (w : world) : world :=
  {| clock := clock w; files := files w; sys_stdout := sys_stdout w;
     console := c; heap := heap w; ui_log := ui_log w;
     results_list := results_list w |}.

Definition set_heap (h : list stringio) (w : world) : world :=
  {| clock := clock w; files := files w; sys_stdout := sys_stdout w;
     console := console w; heap := h; ui_log := ui_log w;
     results_list := results_list w |}.

Definition set_ui_log (u : list ui_event) (w : world) : world :=
  {| clock := clock w; files := files w; sys_stdout := sys_stdout w;
     console := console w; heap := heap w; ui_log := u;
     results_list := results_list w |}.

Definition set_results_list (r : list result_record) (w : world) : world :=
  {| clock := clock w; files := files w; sys_stdout := sys_stdout w;
     console := console w; heap := heap w; ui_log := ui_log w;
     results_list := r |}.

(** ** Statements: state passing with exceptions *)

Definition M (A : Type) : Type := world -> result A * world.

Definition pure {A} (a : A) : M A := fun w => (Ok a, w).

Definition raise {A} (e : exn) : M A := fun w => (Raise e, w).

Definition bind {A B} (m : M A) (k : A -> M B) : M B :=
  fun w =>
    match m w with
    | (Ok a, w') => k a w'
    | (Raise e, w') => (Raise e, w')
    end.

Declare Scope py_scope.
Delimit Scope py_scope with py.
Notation "x ← y ; z" := (bind y (fun x => z))
  (at level 20, y at level 100, z at level 200, only parsing) : py_scope.
Notation "x ;; z" := (bind x (fun _ => z))
  (at level 100, z at level 200, only parsing, right associativity) : py_scope.
Open Scope py_scope.

(** [try: m except: h] with a bare [except]. *)
Definition try_except {A} (m : M A) (h : M A) : M A :=
  fun w =>
    match m w with
    | (Ok a, w') => (Ok a, w')
    | (Raise _, w') => h w'
    end.

(** [with cm as v: body]: [exit] runs on both ways out of the body, and
    the body's exception goes on afterwards (neither [StringIO.__exit__] nor
    [redirect_stdout.__exit__] swallows it). *)
Definition with_ {A B} (enter : M A) (exit : A -> M unit) (body : A -> M B)
  : M B :=
  fun w =>
    match enter w with
    | (Raise e, w1) => (Raise e, w1)
    | (Ok a, w1) =>
        match body a w1 with
        | (Ok b, w2) =>
            match exit a w2 with
            | (Ok _, w3) => (Ok b, w3)
            | (Raise e, w3) => (Raise e, w3)
            end
        | (Raise e, w2) =>
            match exit a w2 with
            | (Ok _, w3) => (Raise e, w3)
            | (Raise e', w3) => (Raise e', w3)
            end
        end
    end.

(** [for x in l: f x] *)
Fixpoint for_each {A} (f : A -> M unit) (l : list A) : M unit :=
  match l with
  | [] => pure tt
  | a :: l' => f a ;; for_each f l'
  end.

(** [enumerate(l)] *)
Definition enumerate {A} (l : list A) : list (nat * A) :=
  zip (seq 0 (length l)) l.

(** [l[i]] *)
Definition subscript {A} (l : list A) (i : nat) : M A :=
  match l !! i with
  | Some a => pure a
  | None => raise IndexError
  end.

(** ** Streamlit calls *)

Definition ui_emit (e : ui_event) : M unit :=
  fun w => (Ok tt, set_ui_log (ui_log w ++ [e]) w).

(** [st.tabs(labels)]: the containers, numbered from 0. *)
Definition st_tabs (labels : list string) : M (list nat) :=
  ui_emit (UiTabs labels) ;; pure (seq 0 (length labels)).

(** [st.empty()] inside [with tab:]; the placeholder is named by its
    position in the page's log. *)
Definition st_empty (tab : nat) : M nat :=
  fun w => (Ok (length (ui_log w)),
            set_ui_log (ui_log w ++ [UiEmpty tab (length (ui_log w))]) w).

Definition st_code (tab : nat) (text : string) : M unit :=
  ui_emit (UiCode tab text).

Definition call (f : callable) (text : string) : M unit :=
  match f with
  | CodeOf ph => ui_emit (UiPlaceholderCode ph text)
  end.

(** ** Standard output and [StringIO] *)

Definition StringIO_new : M nat :=
  fun w => (Ok (length (heap w)),
            set_heap (heap w ++ [{| getvalue := ""; write_attr := None;
                                    closed := false |}]) w).

Definition StringIO_close (id : nat) : M unit :=
  fun w => (Ok tt,
            set_heap (alter (fun b => {| getvalue := getvalue b;
                                         write_attr := write_attr b;
                                         closed := true |}) id (heap w)) w).

Definition closed_file : exn := ValueError "I/O operation on closed file".

(** [StringIO.write], the method [old_write] is bound to. *)
Definition StringIO_write (id : nat) (s : string) : M Z :=
  fun w =>
    match heap w !! id with
    | Some b =>
        if closed b then (Raise closed_file, w)
        else (Ok (Z.of_nat (String.length s)),
              set_heap (<[id := {| getvalue := getvalue b +:+ s;
                                   write_attr := write_attr b;
                                   closed := closed b |}]> (heap w)) w)
    | None => (Raise closed_file, w)
    end.

Definition StringIO_getvalue (id : nat) : M string :=
  fun w =>
    match heap w !! id with
    | Some b =>
        if closed b then (Raise closed_file, w) else (Ok (getvalue b), w)
    | None => (Raise closed_file, w)
    end.

(** [stdout.write = new_write] *)
Definition set_write_attr (id : nat) (f : callable) : M unit :=
  fun w => (Ok tt,
            set_heap (alter (fun b => {| getvalue := getvalue b;
                                         write_attr := Some f;
                                         closed := closed b |}) id (heap w)) w).

(** The closure [new_write] of [st_capture], for the buffer [stdout] and
    the captured [output_func]. *)
Definition new_write (stdout : nat) (output_func : callable) (string : string)
  : M Z :=
  r ← StringIO_write stdout string;
  v ← StringIO_getvalue stdout;
  call output_func v ;;
  pure r.

(** [target.write(s)]: the instance attribute when there is one, the class's
    method otherwise; the console keeps what it is sent. *)
Definition stream_write (target : stream) (s : string) : M Z :=
  match target with
  | Console =>
      fun w => (Ok (Z.of_nat (String.length s)),
                set_console (console w ++ [s]) w)
  | Buffer id =>
      fun w =>
        match heap w !! id with
        | Some b =>
            match write_attr b with
            | Some f => new_write id f s w
            | None => StringIO_write id s w
            end
        | None => (Raise closed_file, w)
        end
  end.

(** [sys.stdout.write(s)], what [print] and the libraries' Python-level
    logging come to. *)
Definition sys_stdout_write (s : string) : M Z :=
  fun w => stream_write (sys_stdout w) s w.

(** [redirect_stdout(new_target)]: [__enter__] keeps the old target and
    installs the new one, [__exit__] puts the old one back. *)
Definition redirect_stdout_enter (new_target : stream) : M stream :=
  fun w => (Ok (sys_stdout w), set_sys_stdout new_target w).

Definition redirect_stdout_exit (old_target : stream) : M unit :=
  fun w => (Ok tt, set_sys_stdout old_target w).

(** [with st_capture(output_func): body].  The generator runs up to its
    [yield] on entry, the body runs at the [yield], and the two [with]
    items are left afterwards, innermost first. *)
Definition st_capture {A} (output_func : callable) (body : M A) : M A :=
  with_ StringIO_new StringIO_close (fun stdout =>
    with_ (redirect_stdout_enter (Buffer stdout)) redirect_stdout_exit
      (fun _ => set_write_attr stdout output_func ;; body)).

(** ** Files and the clock *)

Definition os_path_exists (path : string) : M bool :=
  fun w => (Ok (bool_decide (is_Some (files w !! path))), w).

Definition os_remove (path : string) : M unit :=
  fun w =>
    match files w !! path with
    | Some _ => (Ok tt, set_files (delete path (files w)) w)
    | None => (Raise (FileNotFoundError path), w)
    end.

(** [with open(path, "r") as f: f.read()] *)
Definition read_file (path : string) : M string :=
  fun w =>
    match files w !! path with
    | Some text => (Ok text, w)
    | None => (Raise (FileNotFoundError path), w)
    end.

(** [with open(path, "wb") as f: f.write(content)] *)
Definition write_file (path content : string) : M unit :=
  fun w => (Ok tt, set_files (<[path := content]> (files w)) w).

Definition time_time : M float :=
  fun w => (Ok (clock w), w).

(** ** The solver libraries *)

(** One call into a library (a function, a method, a property read): the
    text it sends to [sys.stdout], the time it takes and how it ends. *)
Record api_call (A : Type) := {
  out : list string;
  elapsed : float;
  res : result A;
}.
Arguments out {A} _.
Arguments elapsed {A} _.
Arguments res {A} _.

(** A run of [sys.stdout.write] calls, one per piece of text. *)
Definition write_all (texts : list string) : M unit :=
  for_each (fun s => sys_stdout_write s ;; pure tt) texts.

Definition invoke {A} (c : api_call A) : M A :=
  write_all (out c) ;;
  (fun w => (res c, set_clock (clock w + elapsed c)%float w)).

(** What each library does for one model file and time limit, call by call
    in the order the adapters make them. *)
Module gp.
Record api := {
  read : api_call unit;
  set_TimeLimit : api_call unit;
  optimize : api_call unit;
  MIPGap : api_call pyval;
  ObjVal : api_call pyval;
  version : api_call (Z * Z * Z);
  IterCount : api_call pyval;
  NodeCount : api_call pyval;
  Runtime : api_call pyval;
  Status : api_call Z;
}.
End gp.

Module highspy.
Record info := {
  simplex_iteration_count : pyval;
  mip_node_count : pyval;
  mip_gap : pyval;
  objective_function_value : pyval;
}.
Record api := {
  Highs : api_call unit;
  readModel : api_call unit;
  setOptionValue_time_limit : api_call unit;
  setOptionValue_log_file : api_call unit;
  run : api_call unit;
  run_log : string;
  getInfo : api_call info;
  HIGHS_VERSION_MAJOR : Z;
  HIGHS_VERSION_MINOR : Z;
  HIGHS_VERSION_PATCH : Z;
  getRunTime : api_call pyval;
  getModelStatus : api_call pyval;
  modelStatusToString : api_call pyval;
}.
End highspy.

Module pyscipopt.
Record api := {
  Model : api_call unit;
  redirectOutput : api_call unit;
  printVersion : api_call unit;
  readProblem : api_call unit;
  setParam_limits_time : api_call unit;
  optimize : api_call unit;
  getObjVal : api_call pyval;
  version : api_call pyval;
  getTotalTime : api_call pyval;
  getNLPIterations : api_call pyval;
  getNNodes : api_call pyval;
  getGap : api_call pyval;
  getStatus : api_call pyval;
}.
End pyscipopt.

Module mip.
Record api := {
  Model : api_call unit;
  read : api_call unit;
  optimize : api_call pyval;
  gap : api_call pyval;
  objective_value : api_call pyval;
}.
End mip.

Record environment := {
  float_str : float -> string;
  gurobipy : string -> Z -> gp.api;
  highs : string -> Z -> highspy.api;
  scip : string -> Z -> pyscipopt.api;
  cbc : string -> Z -> mip.api;
}.

(** [h.run()] with the option [log_file] set: HiGHS opens that file for
    appending and writes the run's log to it. *)
Definition Highs_run (h : highspy.api) (log_file : string) : M unit :=
  (fun w => (Ok tt,
             set_files (<[log_file :=
                          default "" (files w !! log_file)
                          +:+ highspy.run_log h]> (files w)) w)) ;;
  invoke (highspy.run h).

(** What a replacement field of an f-string shows. *)
Definition format_value (env : environment) (v : pyval) : string :=
  match v with
  | PNone => "None"
  | PInt z => pretty z
  | PFloat x => float_str env x
  | PStr s => s
  | PObj r => r
  end.

(** ** The adapters *)

Definition run_cbc (env : environment) (model : string) (timelimit : Z)
  : M result_record :=
  let m := cbc env model timelimit in
  invoke (mip.Model m) ;;
  invoke (mip.read m) ;;
  start ← time_time;
  status ← invoke (mip.optimize m);
  end_ ← time_time;
  gap ← invoke (mip.gap m);
  objective_value ← invoke (mip.objective_value m);
  pure {| solver := "CBC";
          time := PFloat (end_ - start)%float;
          iterations := PNone;
          nodes := PNone;
          gap := gap;
          objective := objective_value;
          status := status |}.

Definition run_highs (env : environment) (model : string) (timelimit : Z)
  : M result_record :=
  let h := highs env model timelimit in
  invoke (highspy.Highs h) ;;
  invoke (highspy.readModel h) ;;
  invoke (highspy.setOptionValue_time_limit h) ;;
  exists_ ← os_path_exists "highs.log";
  (if exists_ : bool then os_remove "highs.log" else pure tt) ;;
  invoke (highspy.setOptionValue_log_file h) ;;
  Highs_run h "highs.log" ;;
  info ← invoke (highspy.getInfo h);
  let version := [highspy.HIGHS_VERSION_MAJOR h;
                  highspy.HIGHS_VERSION_MINOR h;
                  highspy.HIGHS_VERSION_PATCH h] in
  let label := "HiGHS " +:+ pretty (version !!! 0%nat) +:+ "."
               +:+ pretty (version !!! 1%nat) +:+ "."
               +:+ pretty (version !!! 2%nat) in
  run_time ← invoke (highspy.getRunTime h);
  invoke (highspy.getModelStatus h) ;;
  status ← invoke (highspy.modelStatusToString h);
  pure {| solver := label;
          time := run_time;
          iterations := highspy.simplex_iteration_count info;
          nodes := highspy.mip_node_count info;
          gap := highspy.mip_gap info;
          objective := highspy.objective_function_value info;
          status := status |}.

Definition run_pyscipopt (env : environment) (model : string) (timelimit : Z)
  : M result_record :=
  let m := scip env model timelimit in
  invoke (pyscipopt.Model m) ;;
  invoke (pyscipopt.redirectOutput m) ;;
  invoke (pyscipopt.printVersion m) ;;
  invoke (pyscipopt.readProblem m) ;;
  invoke (pyscipopt.setParam_limits_time m) ;;
  invoke (pyscipopt.optimize m) ;;
  objval ← try_except (invoke (pyscipopt.getObjVal m)) (pure PNone);
  version ← invoke (pyscipopt.version m);
  total_time ← invoke (pyscipopt.getTotalTime m);
  lp_iterations ← invoke (pyscipopt.getNLPIterations m);
  n_nodes ← invoke (pyscipopt.getNNodes m);
  gap ← invoke (pyscipopt.getGap m);
  status ← invoke (pyscipopt.getStatus m);
  pure {| solver := "SCIP " +:+ format_value env version;
          time := total_time;
          iterations := lp_iterations;
          nodes := n_nodes;
          gap := gap;
          objective := objval;
          status := status |}.

Definition statuscodes : gmap Z string :=
  list_to_map
    [(1, "LOADED"); (2, "OPTIMAL"); (3, "INFEASIBLE"); (4, "INF_OR_UNBD");
     (5, "UNBOUNDED"); (6, "CUTOFF"); (7, "ITERATION_LIMIT");
     (8, "NODE_LIMIT"); (9, "TIME_LIMIT"); (10, "SOLUTION_LIMIT");
     (11, "INTERRUPTED"); (12, "NUMERIC"); (13, "SUBOPTIMAL");
     (14, "INPROGRESS"); (15, "USER_OBJ_LIMIT"); (16, "WORK_LIMIT");
     (17, "MEM_LIMIT")]%Z.

(** [d[k]] on a dict with int keys *)
Definition dict_getitem (d : gmap Z string) (k : Z) : M string :=
  match d !! k with
  | Some v => pure v
  | None => raise (KeyError (PInt k))
  end.

Definition run_gurobi (env : environment) (model : string) (timelimit : Z)
  : M result_record :=
  let m := gurobipy env model timelimit in
  invoke (gp.read m) ;;
  invoke (gp.set_TimeLimit m) ;;
  invoke (gp.optimize m) ;;
  gap ← try_except (invoke (gp.MIPGap m)) (pure PNone);
  objval ← try_except (invoke (gp.ObjVal m)) (pure PNone);
  version ← invoke (gp.version m);
  let label := "Gurobi " +:+ pretty (version.1.1) +:+ "."
               +:+ pretty (version.1.2) +:+ "." +:+ pretty (version.2) in
  iter_count ← invoke (gp.IterCount m);
  node_count ← invoke (gp.NodeCount m);
  runtime ← invoke (gp.Runtime m);
  code ← invoke (gp.Status m);
  status ← dict_getitem statuscodes code;
  pure {| solver := label;
          iterations := iter_count;
          nodes := node_count;
          objective := objval;
          gap := gap;
          time := runtime;
          status := PStr status |}.

(** ** The script body *)

Definition results_list_append (r : result_record) : M unit :=
  fun w => (Ok tt, set_results_list (results_list w ++ [r]) w).

(** One pass of [for i, s in enumerate(solvers)]: four [if]s in a row. *)
Definition loop_body (env : environment) (model : string) (timelimit : Z)
    (tabs : list nat) (i : nat) (s : string) : M unit :=
  (if String.eqb s "Gurobi" then
     tab ← subscript tabs (i + 1);
     output1 ← st_empty tab;
     st_capture (CodeOf output1)
       (r ← run_gurobi env model timelimit; results_list_append r)
   else pure tt) ;;
  (if String.eqb s "HiGHS" then
     tab ← subscript tabs (i + 1);
     r ← run_highs env model timelimit;
     results_list_append r ;;
     highslog ← read_file "highs.log";
     st_code tab highslog
   else pure tt) ;;
  (if String.eqb s "SCIP" then
     tab ← subscript tabs (i + 1);
     output3 ← st_empty tab;
     st_capture (CodeOf output3)
       (r ← run_pyscipopt env model timelimit; results_list_append r)
   else pure tt) ;;
  (if String.eqb s "CBC" then
     tab ← subscript tabs (i + 1);
     output4 ← st_empty tab;
     st_capture (CodeOf output4)
       (r ← run_cbc env model timelimit; results_list_append r)
   else pure tt).

Definition solver_loop (env : environment) (model : string) (timelimit : Z)
    (tabs : list nat) (solvers : list string) : M unit :=
  for_each (fun '(i, s) => loop_body env model timelimit tabs i s)
           (enumerate solvers).

(** [pd.DataFrame(results_list)] followed by [set_index("solver")]: a
    frame made from no rows has no columns, and [set_index] raises a
    [KeyError] that lists the keys it did not find among them. *)
Definition DataFrame_set_index_solver (rows : list result_record)
  : M (list result_record) :=
  match rows with
  | [] => raise (KeyError (PStr "None of ['solver'] are in the columns"))
  | _ => pure rows
  end.

(** The four colours of the chart, [range] in the script. *)
Definition palette : list string := ["#DD2113"; "green"; "#1E3AC5"; "#004746"].

(** The block under [if submitted:]. *)
Definition submitted_run (env : environment) (model : string) (timelimit : Z)
    (solvers : list string) : M unit :=
  (fun w => (Ok tt, set_results_list [] w)) ;;
  tabs ← st_tabs ("Results" :: solvers);
  solver_loop env model timelimit tabs solvers ;;
  tab0 ← subscript tabs 0;
  rows ← (fun w => (Ok (results_list w), w));
  results ← DataFrame_set_index_solver rows;
  ui_emit (UiDataframe tab0 results) ;;
  let domain := solver <$> results in
  let range := palette in
  let chart := {| chart_data := results;
                  encode_x := "time";
                  encode_y := "solver";
                  color_field := "solver";
                  scale_domain := domain;
                  scale_range := range |} in
  ui_emit (UiAltairChart tab0 chart).

(** The script from the upload on, once the user has chosen a time limit
    and solvers: the uploaded file is written to the working directory under
    its own name, and the run follows when the form was submitted.  The
    image, the header and the message the page shows before are left out. *)
Definition main (env : environment) (upload : option (string * string))
    (timelimit : Z) (solvers : list string) (submitted : bool) : M unit :=
  match upload with
  | Some (name, content) =>
      write_file name content ;;
      if submitted then submitted_run env name timelimit solvers else pure tt
  | None => pure tt
  end.

(** The options of [st.multiselect], which returns some of them, each at
    most once, in the order the user picked them. *)
Definition options : list string := ["Gurobi"; "HiGHS"; "SCIP"; "CBC"].

Definition selection (solvers : list string) : Prop :=
  NoDup solvers ∧ solvers ⊆ options.

(** The colour an ordinal scale gives a value: the entry of [range] at the
    position the value has in [domain], the range repeating from its start
    when the domain is the longer list. *)
Definition scale_color (c : chart) (v : string) : option string :=
  match list_find (fun d => d = v) (scale_domain c) with
  | Some (i, _) => scale_range c !! (i mod length (scale_range c))%nat
  | None => None
  end.

(** The chart a run showed last, if any. *)
Definition shown_chart (w : world) : option chart :=
  match last (ui_log w) with
  | Some (UiAltairChart _ c) => Some c
  | _ => None
  end.

(** The adapter the loop calls for an option. *)
Definition run_adapter (env : environment) (model : string) (timelimit : Z)
    (s : string) : option (M result_record) :=
  if String.eqb s "Gurobi" then Some (run_gurobi env model timelimit)
  else if String.eqb s "HiGHS" then Some (run_highs env model timelimit)
  else if String.eqb s "SCIP" then Some (run_pyscipopt env model timelimit)
  else if String.eqb s "CBC" then Some (run_cbc env model timelimit)
  else None.

(** ** A small installation to run the script on *)

Definition returns {A} (a : A) : api_call A :=
  {| out := []; elapsed := 0%float; res := Ok a |}.

Definition prints {A} (lines : list string) (a : A) : api_call A :=
  {| out := lines; elapsed := 0.5%float; res := Ok a |}.

Definition fails {A} (cls msg : string) : api_call A :=
  {| out := []; elapsed := 0%float; res := Raise (LibraryError cls msg) |}.

Definition demo_gurobi : gp.api :=
  {| gp.read := prints ["Read MPS format model"] tt;
     gp.set_TimeLimit := prints ["Set parameter TimeLimit"] tt;
     gp.optimize := prints ["Optimize a model"; "Optimal solution found"] tt;
     gp.MIPGap := returns (PFloat 0%float);
     gp.ObjVal := returns (PFloat 3%float);
     gp.version := returns (11, 0, 3)%Z;
     gp.IterCount := returns (PFloat 7%float);
     gp.NodeCount := returns (PFloat 1%float);
     gp.Runtime := returns (PFloat 0.5%float);
     gp.Status := returns 2%Z |}.

Definition demo_highs : highspy.api :=
  {| highspy.Highs := returns tt;
     highspy.readModel := returns tt;
     highspy.setOptionValue_time_limit := returns tt;
     highspy.setOptionValue_log_file := returns tt;
     highspy.run := prints ["Running HiGHS"] tt;
     highspy.run_log := "Running HiGHS; Optimal";
     highspy.getInfo :=
       returns {| highspy.simplex_iteration_count := PInt 7;
                  highspy.mip_node_count := PInt 0;
                  highspy.mip_gap := PFloat 0%float;
                  highspy.objective_function_value := PFloat 3%float |};
     highspy.HIGHS_VERSION_MAJOR := 1;
     highspy.HIGHS_VERSION_MINOR := 7;
     highspy.HIGHS_VERSION_PATCH := 2;
     highspy.getRunTime := returns (PFloat 0.25%float);
     highspy.getModelStatus := returns (PObj "HighsModelStatus.kOptimal");
     highspy.modelStatusToString := returns (PStr "Optimal") |}.

Definition demo_scip : pyscipopt.api :=
  {| pyscipopt.Model := returns tt;
     pyscipopt.redirectOutput := returns tt;
     pyscipopt.printVersion := prints ["SCIP version 9.0.0"] tt;
     pyscipopt.readProblem := prints ["original problem has 2 variables"] tt;
     pyscipopt.setParam_limits_time := returns tt;
     pyscipopt.optimize := prints ["presolving:"; "SCIP Status : optimal"] tt;
     pyscipopt.getObjVal := returns (PFloat 3%float);
     pyscipopt.version := returns (PFloat 9%float);
     pyscipopt.getTotalTime := returns (PFloat 0.75%float);
     pyscipopt.getNLPIterations := returns (PInt 7);
     pyscipopt.getNNodes := returns (PInt 1);
     pyscipopt.getGap := returns (PFloat 0%float);
     pyscipopt.getStatus := returns (PStr "optimal") |}.

Definition demo_cbc : mip.api :=
  {| mip.Model := returns tt;
     mip.read := returns tt;
     mip.optimize := prints [] (PObj "OptimizationStatus.OPTIMAL");
     mip.gap := returns (PFloat 0%float);
     mip.objective_value := returns (PFloat 3%float) |}.

Definition demo_env : environment :=
  {| float_str := fun _ => "9.0";
     gurobipy := fun _ _ => demo_gurobi;
     highs := fun _ _ => demo_highs;
     scip := fun _ _ => demo_scip;
     cbc := fun _ _ => demo_cbc |}.

Definition with_gurobi (g : gp.api) (env : environment) : environment :=
  {| float_str := float_str env;
     gurobipy := fun _ _ => g;
     highs := highs env;
     scip := scip env;
     cbc := cbc env |}.

Definition with_scip (m : pyscipopt.api) (env : environment) : environment :=
  {| float_str := float_str env;
     gurobipy := gurobipy env;
     highs := highs env;
     scip := fun _ _ => m;
     cbc := cbc env |}.

Definition with_cbc (m : mip.api) (env : environment) : environment :=
  {| float_str := float_str env;
     gurobipy := gurobipy env;
     highs := highs env;
     scip := scip env;
     cbc := fun _ _ => m |}.

(** The same installation with a CBC that cannot read the model. *)
Definition demo_env_cbc_read_fails : environment :=
  with_cbc {| mip.Model := returns tt;
              mip.read := fails "OSError" "cannot read model";
              mip.optimize := mip.optimize demo_cbc;
              mip.gap := mip.gap demo_cbc;
              mip.objective_value := mip.objective_value demo_cbc |}
           demo_env.



(** A SCIP whose queries [getObjVal] and [getGap] raise as chosen. *)
Definition scip_queries (objval gap : api_call pyval) : pyscipopt.api :=
  {| pyscipopt.Model := pyscipopt.Model demo_scip;
     pyscipopt.redirectOutput := pyscipopt.redirectOutput demo_scip;
     pyscipopt.printVersion := pyscipopt.printVersion demo_scip;
     pyscipopt.readProblem := pyscipopt.readProblem demo_scip;
     pyscipopt.setParam_limits_time := pyscipopt.setParam_limits_time demo_scip;
     pyscipopt.optimize := pyscipopt.optimize demo_scip;
     pyscipopt.getObjVal := objval;
     pyscipopt.version := pyscipopt.version demo_scip;
     pyscipopt.getTotalTime := pyscipopt.getTotalTime demo_scip;
     pyscipopt.getNLPIterations := pyscipopt.getNLPIterations demo_scip;
     pyscipopt.getNNodes := pyscipopt.getNNodes demo_scip;
     pyscipopt.getGap := gap;
     pyscipopt.getStatus := pyscipopt.getStatus demo_scip |}.


(** A CBC whose [gap] property raises. *)
Definition cbc_gap_fails : mip.api :=
  {| mip.Model := mip.Model demo_cbc;
     mip.read := mip.read demo_cbc;
     mip.optimize := mip.optimize demo_cbc;
     mip.gap := fails "Exception" "no solution";
     mip.objective_value := mip.objective_value demo_cbc |}.

Definition fresh_world : world :=
  {| clock := 0%float;
     files := {["model.mps" := "NAME demo"]};
     sys_stdout := Console;
     console := [];
     heap := [];
     ui_log := [];
     results_list := [] |}.

(** A working directory in which an earlier run left its log. *)
Definition stale_world : world :=
  set_files (<["highs.log" := "log of an earlier run"]> (files fresh_world))
    fresh_world.

(** Installations whose library cannot read the model. *)
Definition gurobi_read_fails : gp.api :=
  {| gp.read := fails "GurobiError" "Unable to read model";
     gp.set_TimeLimit := gp.set_TimeLimit demo_gurobi;
     gp.optimize := gp.optimize demo_gurobi;
     gp.MIPGap := gp.MIPGap demo_gurobi;
     gp.ObjVal := gp.ObjVal demo_gurobi;
     gp.version := gp.version demo_gurobi;
     gp.IterCount := gp.IterCount demo_gurobi;
     gp.NodeCount := gp.NodeCount demo_gurobi;
     gp.Runtime := gp.Runtime demo_gurobi;
     gp.Status := gp.Status demo_gurobi |}.

Definition scip_read_fails : pyscipopt.api :=
  {| pyscipopt.Model := pyscipopt.Model demo_scip;
     pyscipopt.redirectOutput := pyscipopt.redirectOutput demo_scip;
     pyscipopt.printVersion := pyscipopt.printVersion demo_scip;
     pyscipopt.readProblem := fails "OSError" "SCIP: error in input data";
     pyscipopt.setParam_limits_time := pyscipopt.setParam_limits_time demo_scip;
     pyscipopt.optimize := pyscipopt.optimize demo_scip;
     pyscipopt.getObjVal := pyscipopt.getObjVal demo_scip;
     pyscipopt.version := pyscipopt.version demo_scip;
     pyscipopt.getTotalTime := pyscipopt.getTotalTime demo_scip;
     pyscipopt.getNLPIterations := pyscipopt.getNLPIterations demo_scip;
     pyscipopt.getNNodes := pyscipopt.getNNodes demo_scip;
     pyscipopt.getGap := pyscipopt.getGap demo_scip;
     pyscipopt.getStatus := pyscipopt.getStatus demo_scip |}.

Definition highs_read_fails : highspy.api :=
  {| highspy.Highs := highspy.Highs demo_highs;
     highspy.readModel := fails "RuntimeError" "cannot read model";
     highspy.setOptionValue_time_limit :=
       highspy.setOptionValue_time_limit demo_highs;
     highspy.setOptionValue_log_file :=
       highspy.setOptionValue_log_file demo_highs;
     highspy.run := highspy.run demo_highs;
     highspy.run_log := highspy.run_log demo_highs;
     highspy.getInfo := highspy.getInfo demo_highs;
     highspy.HIGHS_VERSION_MAJOR := highspy.HIGHS_VERSION_MAJOR demo_highs;
     highspy.HIGHS_VERSION_MINOR := highspy.HIGHS_VERSION_MINOR demo_highs;
     highspy.HIGHS_VERSION_PATCH := highspy.HIGHS_VERSION_PATCH demo_highs;
     highspy.getRunTime := highspy.getRunTime demo_highs;
     highspy.getModelStatus := highspy.getModelStatus demo_highs;
     highspy.modelStatusToString := highspy.modelStatusToString demo_highs |}.


Definition with_highs (h : highspy.api) (env : environment) : environment :=
  {| float_str := float_str env;
     gurobipy := gurobipy env;
     highs := fun _ _ => h;
     scip := scip env;
     cbc := cbc env |}.

(** * The vocabulary of the properties *)

(** A statement keeps the relation [R] between the state it starts in and
    the one it ends in, however it ends. *)
Definition respects (R : relation world) {A} (m : M A) : Prop :=
  forall w, R w (m w).2.

(** Relations that do not look at what was printed, shown or timed: the
    console, the page, the clock and the text held by a buffer. *)
Class OutputBlind (R : relation world) := {
  blind_console : forall w c, R w (set_console c w);
  blind_ui_log : forall w u, R w (set_ui_log u w);
  blind_clock : forall w t, R w (set_clock t w);
  blind_buffer : forall w id b text,
    heap w !! id = Some b ->
    R w (set_heap (<[id := {| getvalue := text;
                              write_attr := write_attr b;
                              closed := closed b |}]> (heap w)) w);
}.

(** A field is left as it was. *)
Definition same {B} (f : world -> B) : relation world :=
  fun w w' => f w' = f w.

(** [sys.stdout] is left as it was, and every buffer there was is still
    there, open if it was open. *)
Definition steady : relation world :=
  fun w w' =>
    sys_stdout w' = sys_stdout w /\
    forall id b, heap w !! id = Some b ->
                 exists b', heap w' !! id = Some b' /\ closed b' = closed b.

(** [sys.stdout] can be written to: it is the console or an open buffer. *)
Definition writable (w : world) : Prop :=
  match sys_stdout w with
  | Console => True
  | Buffer id => exists b, heap w !! id = Some b /\ closed b = false
  end.

(** The state a library call leaves. *)
Definition after {A} (c : api_call A) (w : world) : world := (invoke c w).2.

(** What [try: v = query except: v = None] leaves in [v]. *)
Definition caught (r : result pyval) : pyval :=
  match r with
  | Ok v => v
  | Raise _ => PNone
  end.

(** The state the body of [with st_capture(f):] starts in: a new empty
    buffer with [write] replaced, and [sys.stdout] pointing to it. *)
Definition capture_enter (f : callable) (w : world) : world :=
  set_heap
    (alter (fun b => {| getvalue := getvalue b; write_attr := Some f;
                        closed := closed b |})
       (length (heap w))
       (heap w ++ [{| getvalue := ""; write_attr := None;
                      closed := false |}])%list)
    (set_sys_stdout (Buffer (length (heap w)))
       (set_heap
          (heap w ++ [{| getvalue := ""; write_attr := None; closed := false |}])
          w)).

(** The state the region leaves, from the one its body ended in:
    [sys.stdout] is put back and the buffer is closed. *)
Definition capture_leave (old : stream) (id : nat) (w : world) : world :=
  set_heap
    (alter (fun b => {| getvalue := getvalue b; write_attr := write_attr b;
                        closed := true |}) id (heap w))
    (set_sys_stdout old w).

(** The record [r] is what the adapter for the option [s] returned from
    some state with a writable [sys.stdout]. *)
Definition produced_by (env : environment) (model : string) (timelimit : Z)
    (s : string) (r : result_record) : Prop :=
  exists m w w',
    run_adapter env model timelimit s = Some m /\
    writable w /\ m w = (Ok r, w').

(** The shape of the passes for Gurobi, SCIP and CBC. *)
Definition capture_pass (tabs : list nat) (i : nat) (run : M result_record)
  : M unit :=
  tab ← subscript tabs (i + 1);
  output ← st_empty tab;
  st_capture (CodeOf output) (r ← run; results_list_append r).

Definition highs_pass (env : environment) (model : string) (timelimit : Z)
    (tabs : list nat) (i : nat) : M unit :=
  tab ← subscript tabs (i + 1);
  r ← run_highs env model timelimit;
  results_list_append r ;;
  highslog ← read_file "highs.log";
  st_code tab highslog.

(** The texts a sink is sent when the pieces [writes] are written one
    after the other to a buffer holding [acc]: after each piece, all the
    buffer holds. *)
Fixpoint running (acc : string) (writes : list string) : list string :=
  match writes with
  | [] => []
  | s :: writes' => (acc +:+ s) :: running (acc +:+ s) writes'
  end.

(** [''.join(l)] *)
Definition join (l : list string) : string := foldr String.append "" l.

(** The texts the page's log shows were sent to a placeholder's [code]. *)
Definition sink_calls (ph : nat) (log : list ui_event) : list string :=
  omap (fun e => match e with
                 | UiPlaceholderCode p text =>
                     if decide (p = ph) then Some text else None
                 | _ => None
                 end) log.

(** A library call that returns. *)
Definition completes {A} (c : api_call A) : Prop := exists a, res c = Ok a.

(** The calls of [run_gurobi] outside its two [try] blocks, but for the
    read of [m.Status]. *)
Definition gurobi_calls_return (m : gp.api) : Prop :=
  completes (gp.read m) /\ completes (gp.set_TimeLimit m) /\
  completes (gp.optimize m) /\ completes (gp.version m) /\
  completes (gp.IterCount m) /\ completes (gp.NodeCount m) /\
  completes (gp.Runtime m).

(** The calls of [run_pyscipopt] up to and including [m.optimize()]. *)
Definition scip_solve_returns (m : pyscipopt.api) : Prop :=
  completes (pyscipopt.Model m) /\ completes (pyscipopt.redirectOutput m) /\
  completes (pyscipopt.printVersion m) /\ completes (pyscipopt.readProblem m) /\
  completes (pyscipopt.setParam_limits_time m) /\
  completes (pyscipopt.optimize m).

(** The queries [run_pyscipopt] makes between its [try] block and
    [m.getGap()]. *)
Definition scip_queries_return (m : pyscipopt.api) : Prop :=
  completes (pyscipopt.version m) /\ completes (pyscipopt.getTotalTime m) /\
  completes (pyscipopt.getNLPIterations m) /\ completes (pyscipopt.getNNodes m).

(** The calls of [run_cbc] up to and including [m.optimize(...)]. *)
Definition cbc_solve_returns (m : mip.api) : Prop :=
  completes (mip.Model m) /\ completes (mip.read m) /\
  completes (mip.optimize m).

(** The calls of [run_highs] before [h.run()]. *)
Definition highs_setup_returns (h : highspy.api) : Prop :=
  completes (highspy.Highs h) /\ completes (highspy.readModel h) /\
  completes (highspy.setOptionValue_time_limit h) /\
  completes (highspy.setOptionValue_log_file h).

(** [h.run()] and the calls of [run_highs] after it. *)
Definition highs_run_returns (h : highspy.api) : Prop :=
  completes (highspy.run h) /\ completes (highspy.getInfo h) /\
  completes (highspy.getRunTime h) /\ completes (highspy.getModelStatus h) /\
  completes (highspy.modelStatusToString h).

(** What a pass of the loop for the option [s] does to [results_list]:
    it ends in an error with the list as it was, or the list has one more
    record, made by the adapter for [s]. *)
Inductive pass_result (env : environment) (model : string) (timelimit : Z)
    (s : string) (w : world) : result unit -> world -> Prop :=
| pass_raised e w' :
    results_list w' = results_list w ->
    pass_result env model timelimit s w (Raise e) w'
| pass_appended o r w' :
    results_list w' = (results_list w ++ [r])%list ->
    produced_by env model timelimit s r ->
    pass_result env model timelimit s w o w'.

(** The state in which [submitted_run] enters the loop. *)
Definition loop_entry (solvers : list string) (w : world) : world :=
  set_ui_log (ui_log w ++ [UiTabs ("Results" :: solvers)])
    (set_results_list [] w).

(** The chart [submitted_run] builds from the rows [rows]. *)
Definition chart_of (rows : list result_record) : chart :=
  {| chart_data := rows;
     encode_x := "time";
     encode_y := "solver";
     color_field := "solver";
     scale_domain := solver <$> rows;
     scale_range := palette |}.

(** The part of a record the order of the solvers is compared on. *)
Definition core (r : result_record) : string * pyval * pyval :=
  (solver r, status r, objective r).

(** The first character of a solver's name or of a record's label. *)
Definition initial (s : string) : option Ascii.ascii :=
  match s with
  | String c _ => Some c
  | EmptyString => None
  end.

(** The adapter of every solver in [solvers] returns a record from every
    state with a writable [sys.stdout]. *)
Definition adapters_return (env : environment) (model : string)
    (timelimit : Z) (solvers : list string) : Prop :=
  forall s m w,
    s ∈ solvers ->
    run_adapter env model timelimit s = Some m ->
    writable w ->
    exists r w', m w = (Ok r, w').

(** [sys.stdout] is the buffer [id], open and holding [acc], with its
    [write] replaced by the closure that calls the [code] method of the
    placeholder [ph]: the state inside a region of [st_capture]. *)
Definition hooked (id ph : nat) (acc : string) (w : world) : Prop :=
  sys_stdout w = Buffer id /\
  heap w !! id = Some {| getvalue := acc; write_attr := Some (CodeOf ph);
                         closed := false |}.

(** From a state inside the region of buffer [id] and placeholder [ph]:
    the state is still inside it, the page has only been sent new texts for
    that placeholder, each all the buffer held at the time, and nothing
    went to the console. *)
Definition captured (id ph : nat) : relation world :=
  fun w w' =>
    forall acc,
      hooked id ph acc w ->
      exists texts,
        hooked id ph (acc +:+ join texts) w' /\
        ui_log w' = (ui_log w
                     ++ map (UiPlaceholderCode ph) (running acc texts))%list /\
        console w' = console w.

(** Every file other than [highs.log] is as it was. *)
Definition only_log : relation world :=
  fun w w' => forall p, p ≠ "highs.log" -> files w' !! p = files w !! p.

(** While [sys.stdout] is the console it stays the console, and the page
    is sent nothing. *)
Definition on_console : relation world :=
  fun w w' =>
    sys_stdout w = Console ->
    sys_stdout w' = Console /\ ui_log w' = ui_log w.

(** From [w], inside the region of buffer [id] holding [acc], to [w']:
    the pieces [texts] were written, each sent on to the placeholder [ph]
    with all the buffer held by then. *)
Definition shown (id ph : nat) (acc : string) (texts : list string)
    (w w' : world) : Prop :=
  hooked id ph (acc +:+ join texts) w' /\
  ui_log w' = ui_log w ++ map (UiPlaceholderCode ph) (running acc texts).

(** What [run_gurobi] prints when all its calls are made, in their order. *)
Definition gurobi_output (m : gp.api) : list string :=
  out (gp.read m) ++ out (gp.set_TimeLimit m) ++ out (gp.optimize m)
  ++ out (gp.MIPGap m) ++ out (gp.ObjVal m) ++ out (gp.version m)
  ++ out (gp.IterCount m) ++ out (gp.NodeCount m) ++ out (gp.Runtime m)
  ++ out (gp.Status m).



(** What [run_pyscipopt] prints when all its calls are made. *)
Definition scip_output (m : pyscipopt.api) : list string :=
  out (pyscipopt.Model m) ++ out (pyscipopt.redirectOutput m)
  ++ out (pyscipopt.printVersion m) ++ out (pyscipopt.readProblem m)
  ++ out (pyscipopt.setParam_limits_time m) ++ out (pyscipopt.optimize m)
  ++ out (pyscipopt.getObjVal m) ++ out (pyscipopt.version m)
  ++ out (pyscipopt.getTotalTime m) ++ out (pyscipopt.getNLPIterations m)
  ++ out (pyscipopt.getNNodes m) ++ out (pyscipopt.getGap m)
  ++ out (pyscipopt.getStatus m).

(** What [run_cbc] prints when all its calls are made. *)
Definition cbc_output (m : mip.api) : list string :=
  out (mip.Model m) ++ out (mip.read m) ++ out (mip.optimize m)
  ++ out (mip.gap m) ++ out (mip.objective_value m).

(** * Properties *)

(** ** Stepping through statements *)

Lemma bind_ok {A B} (m : M A) (k : A -> M B) w a w1 :
  m w = (Ok a, w1) -> bind m k w = k a w1.
Proof. intros H. unfold bind. now rewrite H. Qed.

Lemma bind_raise {A B} (m : M A) (k : A -> M B) w e w1 :
  m w = (Raise e, w1) -> bind m k w = (Raise e, w1).
Proof. intros H. unfold bind. now rewrite H. Qed.

Lemma bind_inv_ok {A B} (m : M A) (k : A -> M B) w b w' :
  bind m k w = (Ok b, w') ->
  exists a w1, m w = (Ok a, w1) /\ k a w1 = (Ok b, w').
Proof.
  unfold bind. destruct (m w) as [[a|e] w1]; intros H.
  - now exists a, w1.
  - discriminate.
Qed.

Lemma for_each_app {A} (f : A -> M unit) (l1 l2 : list A) w :
  for_each f (l1 ++ l2) w = (for_each f l1 ;; for_each f l2) w.
Proof.
  revert w. induction l1 as [|a l1 IH]; intros w; simpl.
  - reflexivity.
  - unfold bind in *. destruct (f a w) as [[[]|e] w1]; [apply IH|reflexivity].
Qed.

(** ** Relations every step of a statement keeps *)

Section respects.
Context (R : relation world) `{!PreOrder R}.

Lemma respects_pure {A} (a : A) : respects R (pure a).
Proof. intros w. simpl. reflexivity. Qed.

Lemma respects_raise {A} (e : exn) : respects R (@raise A e).
Proof. intros w. simpl. reflexivity. Qed.

Lemma respects_bind {A B} (m : M A) (k : A -> M B) :
  respects R m -> (forall a, respects R (k a)) -> respects R (bind m k).
Proof.
  intros Hm Hk w. unfold bind. specialize (Hm w).
  destruct (m w) as [[a|e] w1]; simpl in *; [|exact Hm].
  etrans; [exact Hm | apply Hk].
Qed.

Lemma respects_try_except {A} (m h : M A) :
  respects R m -> respects R h -> respects R (try_except m h).
Proof.
  intros Hm Hh w. unfold try_except. specialize (Hm w).
  destruct (m w) as [[a|e] w1]; simpl in *; [exact Hm|].
  etrans; [exact Hm | apply Hh].
Qed.

Lemma respects_for_each {A} (f : A -> M unit) (l : list A) :
  (forall a, respects R (f a)) -> respects R (for_each f l).
Proof.
  intros Hf. induction l as [|a l IH]; simpl.
  - apply respects_pure.
  - apply respects_bind; [apply Hf | intros _; exact IH].
Qed.

Lemma respects_subscript {A} (l : list A) (i : nat) :
  respects R (subscript l i).
Proof.
  unfold subscript. destruct (l !! i);
    [apply respects_pure | apply respects_raise].
Qed.

Lemma respects_dict_getitem d k : respects R (dict_getitem d k).
Proof.
  unfold dict_getitem. destruct (d !! k);
    [apply respects_pure | apply respects_raise].
Qed.

Lemma respects_time_time : respects R time_time.
Proof. intros w. simpl. reflexivity. Qed.

Lemma respects_os_path_exists path : respects R (os_path_exists path).
Proof. intros w. simpl. reflexivity. Qed.

Lemma respects_read_file path : respects R (read_file path).
Proof. intros w. unfold read_file. destruct (files w !! path); reflexivity. Qed.

Lemma respects_StringIO_getvalue id : respects R (StringIO_getvalue id).
Proof.
  intros w. unfold StringIO_getvalue.
  destruct (heap w !! id) as [b|]; [destruct (closed b)|]; reflexivity.
Qed.
End respects.

Section output_blind.
Context (R : relation world) `{!PreOrder R} `{!OutputBlind R}.

Lemma respects_ui_emit e : respects R (ui_emit e).
Proof. intros w. apply blind_ui_log. Qed.

Lemma respects_st_tabs labels : respects R (st_tabs labels).
Proof.
  apply respects_bind; [done | apply respects_ui_emit |].
  intros _. by apply respects_pure.
Qed.

Lemma respects_st_empty tab : respects R (st_empty tab).
Proof. intros w. apply blind_ui_log. Qed.

Lemma respects_st_code tab text : respects R (st_code tab text).
Proof. apply respects_ui_emit. Qed.

Lemma respects_call f text : respects R (call f text).
Proof. destruct f. apply respects_ui_emit. Qed.

Lemma respects_StringIO_write id s : respects R (StringIO_write id s).
Proof.
  intros w. unfold StringIO_write.
  destruct (heap w !! id) as [b|] eqn:E; [|reflexivity].
  pose proof (blind_buffer w id b (getvalue b +:+ s) E) as H.
  destruct (closed b); [reflexivity | exact H].
Qed.

Lemma respects_new_write id f s : respects R (new_write id f s).
Proof.
  unfold new_write.
  apply respects_bind; [done | apply respects_StringIO_write; done |].
  intros r. apply respects_bind; [done | by apply respects_StringIO_getvalue |].
  intros v. apply respects_bind; [done | apply respects_call |].
  intros _. by apply respects_pure.
Qed.

Lemma respects_stream_write target s : respects R (stream_write target s).
Proof.
  destruct target as [|id]; intros w; simpl.
  - apply blind_console.
  - destruct (heap w !! id) as [b|]; [|reflexivity].
    destruct (write_attr b).
    + apply respects_new_write.
    + by apply respects_StringIO_write.
Qed.

Lemma respects_sys_stdout_write s : respects R (sys_stdout_write s).
Proof. intros w. apply respects_stream_write. Qed.

Lemma respects_write_all texts : respects R (write_all texts).
Proof.
  apply respects_for_each; [done|]. intros s.
  apply respects_bind; [done | apply respects_sys_stdout_write |].
  intros _. by apply respects_pure.
Qed.

Lemma respects_invoke {A} (c : api_call A) : respects R (invoke c).
Proof.
  unfold invoke. apply respects_bind; [done | apply respects_write_all |].
  intros _ w. apply blind_clock.
Qed.
End output_blind.

Global Instance same_preorder {B} (f : world -> B) : PreOrder (same f).
Proof.
  split; [intros w; reflexivity|].
  intros w1 w2 w3 H1 H2. unfold same in *. congruence.
Qed.

Global Instance same_results_list_blind : OutputBlind (same results_list).
Proof. split; reflexivity. Qed.

Global Instance same_files_blind : OutputBlind (same files).
Proof. split; reflexivity. Qed.

Global Instance steady_preorder : PreOrder steady.
Proof.
  split.
  - intros w. split; [reflexivity|]. intros id b H. by exists b.
  - intros w1 w2 w3 [Ho1 Hh1] [Ho2 Hh2]. split; [congruence|].
    intros id b H. destruct (Hh1 id b H) as (b' & H' & Hc').
    destruct (Hh2 id b' H') as (b'' & H'' & Hc'').
    exists b''. split; [done | congruence].
Qed.

Global Instance steady_blind : OutputBlind steady.
Proof.
  split; try (intros; split; [reflexivity | intros id0 b0 H0; by exists b0]).
  intros w id b text Hb. split; [reflexivity|].
  intros id0 b0 H0. simpl. destruct (decide (id0 = id)) as [->|Hne].
  - rewrite list_lookup_insert_eq by (by eapply lookup_lt_Some).
    eexists. split; [reflexivity|]. simpl. congruence.
  - rewrite list_lookup_insert_ne by done. by exists b0.
Qed.

Lemma steady_writable w w' : steady w w' -> writable w -> writable w'.
Proof.
  intros [Ho Hh]. unfold writable. rewrite Ho.
  destruct (sys_stdout w) as [|id]; [done|].
  intros (b & Hb & Hc). destruct (Hh id b Hb) as (b' & Hb' & Hc').
  exists b'. split; [done | congruence].
Qed.

Lemma sys_stdout_write_ok s w :
  writable w -> exists n, (sys_stdout_write s w).1 = Ok n.
Proof.
  unfold writable, sys_stdout_write, stream_write.
  destruct (sys_stdout w) as [|id]; [by eexists|].
  intros (b & Hb & Hc). rewrite Hb.
  assert (Hw : StringIO_write id s w =
               (Ok (Z.of_nat (String.length s)),
                set_heap (<[id := {| getvalue := getvalue b +:+ s;
                                     write_attr := write_attr b;
                                     closed := closed b |}]> (heap w)) w)).
  { unfold StringIO_write. by rewrite Hb, Hc. }
  destruct (write_attr b) as [f|]; [|rewrite Hw; by eexists].
  unfold new_write. rewrite (bind_ok _ _ _ _ _ Hw).
  unfold bind, StringIO_getvalue. simpl.
  rewrite list_lookup_insert_eq by (by eapply lookup_lt_Some).
  simpl. rewrite Hc. destruct f. simpl. by eexists.
Qed.

Lemma write_all_ok (texts : list string) w :
  writable w -> (write_all texts w).1 = Ok tt.
Proof.
  unfold write_all.
  revert w. induction texts as [|s texts IH]; intros w Hw; [done|].
  simpl. unfold bind at 1 2.
  destruct (sys_stdout_write_ok s w Hw) as [n Hn].
  pose proof (respects_sys_stdout_write steady s w) as Hs.
  destruct (sys_stdout_write s w) as [r w1]. simpl in *. subst r.
  simpl. apply IH. by eapply steady_writable.
Qed.

Lemma invoke_writable {A} (c : api_call A) w :
  writable w -> invoke c w = (res c, after c w).
Proof.
  intros Hw. unfold after, invoke, bind.
  pose proof (write_all_ok (out c) w Hw) as H.
  destruct (write_all (out c) w) as [r w1]. simpl in H. by subst r.
Qed.

Lemma after_steady {A} (c : api_call A) w : steady w (after c w).
Proof. apply (respects_invoke steady). Qed.

Lemma after_writable {A} (c : api_call A) w :
  writable w -> writable (after c w).
Proof. apply steady_writable, after_steady. Qed.

Lemma after_files {A} (c : api_call A) w : files (after c w) = files w.
Proof. apply (respects_invoke (same files)). Qed.

Lemma bind_invoke {A B} (c : api_call A) (k : A -> M B) w :
  writable w ->
  bind (invoke c) k w =
  match res c with
  | Ok a => k a (after c w)
  | Raise e => (Raise e, after c w)
  end.
Proof. intros Hw. unfold bind. by rewrite invoke_writable. Qed.

Lemma bind_try_invoke {B} (c : api_call pyval) (k : pyval -> M B) w :
  writable w ->
  bind (try_except (invoke c) (pure PNone)) k w = k (caught (res c)) (after c w).
Proof.
  intros Hw. unfold bind, try_except. rewrite invoke_writable by done.
  by destruct (res c).
Qed.

Create HintDb writable.
Global Hint Resolve after_writable : writable.

(** ** What the adapters leave alone *)

Ltac respects_step :=
  first
    [ apply respects_pure
    | apply respects_raise
    | apply respects_invoke
    | apply respects_time_time
    | apply respects_os_path_exists
    | apply respects_dict_getitem
    | apply respects_try_except
    | apply respects_bind; [| |intros ?] ];
  try apply _.

Section adapters_respect.
Context (R : relation world) `{!PreOrder R} `{!OutputBlind R}.
Context (env : environment) (model : string) (timelimit : Z).

Lemma respects_run_cbc : respects R (run_cbc env model timelimit).
Proof. unfold run_cbc. repeat respects_step. Qed.

Lemma respects_run_pyscipopt : respects R (run_pyscipopt env model timelimit).
Proof. unfold run_pyscipopt. repeat respects_step. Qed.

Lemma respects_run_gurobi : respects R (run_gurobi env model timelimit).
Proof. unfold run_gurobi. repeat respects_step. Qed.

(** The HiGHS adapter also removes and writes a file. *)
Hypothesis blind_files : forall w f, R w (set_files f w).

Lemma respects_os_remove path : respects R (os_remove path).
Proof.
  intros w. unfold os_remove.
  destruct (files w !! path); [apply blind_files | reflexivity].
Qed.

Lemma respects_Highs_run h log_file : respects R (Highs_run h log_file).
Proof.
  unfold Highs_run. respects_step; [|respects_step].
  intros w. apply blind_files.
Qed.

Lemma respects_run_highs : respects R (run_highs env model timelimit).
Proof.
  unfold run_highs.
  repeat first
    [ apply respects_Highs_run
    | match goal with
      | |- respects _ (if ?b then _ else _) =>
          destruct b; [apply respects_os_remove | apply respects_pure; apply _]
      end
    | respects_step ].
Qed.
End adapters_respect.

(** ** The capture region *)

Lemma st_capture_unfold {A} (f : callable) (body : M A) w :
  st_capture f body w =
  ((body (capture_enter f w)).1,
   capture_leave (sys_stdout w) (length (heap w)) (body (capture_enter f w)).2).
Proof.
  unfold st_capture, with_, bind, StringIO_new, redirect_stdout_enter,
    set_write_attr, redirect_stdout_exit, StringIO_close. simpl.
  fold (capture_enter f w).
  destruct (body (capture_enter f w)) as [[a|e] w2]; reflexivity.
Qed.

Lemma capture_enter_heap f w :
  heap (capture_enter f w) =
  (heap w ++ [{| getvalue := ""; write_attr := Some f; closed := false |}])%list.
Proof.
  unfold capture_enter. simpl.
  replace (length (heap w)) with (length (heap w) + 0)%nat at 1 by lia.
  by rewrite alter_app_r.
Qed.

Lemma capture_enter_writable f w : writable (capture_enter f w).
Proof.
  unfold writable. replace (sys_stdout (capture_enter f w))
    with (Buffer (length (heap w))) by reflexivity.
  rewrite capture_enter_heap. eexists.
  split; [by rewrite list_lookup_middle | reflexivity].
Qed.

Lemma st_capture_steady {A} (f : callable) (body : M A) :
  respects steady body -> respects steady (st_capture f body).
Proof.
  intros Hb w. rewrite st_capture_unfold. simpl.
  destruct (Hb (capture_enter f w)) as [_ Hh].
  split; [reflexivity|]. intros id b Hid. simpl.
  pose proof (lookup_lt_Some _ _ _ Hid) as Hlt.
  destruct (Hh id b) as (b' & Hb' & Hc').
  { rewrite capture_enter_heap. by rewrite lookup_app_l. }
  exists b'. split; [|done].
  rewrite list_lookup_alter_ne by lia. done.
Qed.

Lemma respects_results_list_append r : respects steady (results_list_append r).
Proof. intros w. split; [reflexivity|]. intros id b H. by exists b. Qed.

(** ** One pass of the loop *)

Lemma loop_body_Gurobi env model timelimit tabs i w :
  loop_body env model timelimit tabs i "Gurobi" w =
  capture_pass tabs i (run_gurobi env model timelimit) w.
Proof.
  unfold loop_body. simpl String.eqb. cbv iota.
  unfold bind at 1. fold (capture_pass tabs i (run_gurobi env model timelimit)).
  by destruct (capture_pass _ _ _ w) as [[[]|e] w1].
Qed.

Lemma loop_body_HiGHS env model timelimit tabs i w :
  loop_body env model timelimit tabs i "HiGHS" w =
  highs_pass env model timelimit tabs i w.
Proof.
  unfold loop_body. simpl String.eqb. cbv iota.
  unfold bind at 1 2. unfold pure at 1.
  fold (highs_pass env model timelimit tabs i).
  by destruct (highs_pass _ _ _ _ _ w) as [[[]|e] w1].
Qed.

Lemma loop_body_SCIP env model timelimit tabs i w :
  loop_body env model timelimit tabs i "SCIP" w =
  capture_pass tabs i (run_pyscipopt env model timelimit) w.
Proof.
  unfold loop_body. simpl String.eqb. cbv iota.
  unfold bind at 1 2 3. unfold pure at 1 2.
  fold (capture_pass tabs i (run_pyscipopt env model timelimit)).
  by destruct (capture_pass _ _ _ w) as [[[]|e] w1].
Qed.

Lemma loop_body_CBC env model timelimit tabs i w :
  loop_body env model timelimit tabs i "CBC" w =
  capture_pass tabs i (run_cbc env model timelimit) w.
Proof.
  unfold loop_body. simpl String.eqb. cbv iota.
  unfold bind at 1 2 3. unfold pure at 1 2 3.
  by fold (capture_pass tabs i (run_cbc env model timelimit)).
Qed.

(** ** What a returned record holds *)

Lemma writable_set_files f w : writable w -> writable (set_files f w).
Proof. done. Qed.

Global Hint Resolve writable_set_files : writable.

Ltac writable_tac := solve [eauto 30 with writable].

(** One library call of an adapter that went through. *)
Ltac step_in H :=
  first
    [ rewrite bind_try_invoke in H by writable_tac
    | rewrite bind_invoke in H by writable_tac;
      match type of H with
      | match res ?c with _ => _ end = _ =>
          let E := fresh "E" in
          revert H; destruct (res c) eqn:E; intros H; [|discriminate H]
      end ].

Ltac finish_in H :=
  unfold pure in H; injection H as <- <-; cbv zeta; simpl;
  repeat match goal with
         | |- exists _, _ => eexists
         | |- _ /\ _ => split
         end;
  first [eassumption | reflexivity].

Lemma run_cbc_returned env model timelimit w r w' :
  writable w ->
  run_cbc env model timelimit w = (Ok r, w') ->
  let m := cbc env model timelimit in
  solver r = "CBC" /\ iterations r = PNone /\ nodes r = PNone /\
  res (mip.optimize m) = Ok (status r) /\
  res (mip.gap m) = Ok (gap r) /\
  res (mip.objective_value m) = Ok (objective r).
Proof.
  intros Hw H. unfold run_cbc in H. cbv zeta in H.
  do 2 step_in H.
  unfold bind at 1, time_time at 1 in H. step_in H.
  unfold bind at 1, time_time at 1 in H. do 2 step_in H.
  finish_in H.
Qed.

Lemma run_pyscipopt_returned env model timelimit w r w' :
  writable w ->
  run_pyscipopt env model timelimit w = (Ok r, w') ->
  let m := scip env model timelimit in
  exists version,
    res (pyscipopt.version m) = Ok version /\
    solver r = "SCIP " +:+ format_value env version /\
    res (pyscipopt.getStatus m) = Ok (status r) /\
    res (pyscipopt.getGap m) = Ok (gap r) /\
    objective r = caught (res (pyscipopt.getObjVal m)).
Proof.
  intros Hw H. unfold run_pyscipopt in H. cbv zeta in H.
  do 13 step_in H. finish_in H.
Qed.

Lemma run_gurobi_returned env model timelimit w r w' :
  writable w ->
  run_gurobi env model timelimit w = (Ok r, w') ->
  let m := gurobipy env model timelimit in
  exists version code name,
    res (gp.version m) = Ok version /\
    solver r = "Gurobi " +:+ pretty (version.1.1) +:+ "."
               +:+ pretty (version.1.2) +:+ "." +:+ pretty (version.2) /\
    res (gp.Status m) = Ok code /\
    statuscodes !! code = Some name /\
    status r = PStr name /\
    gap r = caught (res (gp.MIPGap m)) /\
    objective r = caught (res (gp.ObjVal m)).
Proof.
  intros Hw H. unfold run_gurobi in H. cbv zeta in H.
  do 10 step_in H.
  unfold bind, dict_getitem in H.
  destruct (statuscodes !! a6) as [name|] eqn:En; [|discriminate H].
  finish_in H.
Qed.

(** [highs.log] is gone after the test-and-remove, whether it was there
    or not. *)
Lemma highs_log_removed {B} (k : unit -> M B) w :
  (exists_ ← os_path_exists "highs.log";
   (if exists_ : bool then os_remove "highs.log" else pure tt) ;; k tt) w =
  k tt (set_files (delete "highs.log" (files w)) w).
Proof.
  unfold bind, os_path_exists, os_remove, pure.
  destruct (files w !! "highs.log") as [old|] eqn:E.
  - rewrite bool_decide_eq_true_2 by eauto. by rewrite E.
  - rewrite bool_decide_eq_false_2 by (intros [? ?]; congruence).
    rewrite delete_id by done. by destruct w.
Qed.

Lemma Highs_run_steps {B} h log_file (k : unit -> M B) w :
  writable w ->
  (Highs_run h log_file ;; k tt) w =
  let w1 := set_files (<[log_file := default "" (files w !! log_file)
                                      +:+ highspy.run_log h]> (files w)) w in
  match res (highspy.run h) with
  | Ok _ => k tt (after (highspy.run h) w1)
  | Raise e => (Raise e, after (highspy.run h) w1)
  end.
Proof.
  intros Hw. unfold Highs_run. unfold bind at 1 2. cbv zeta.
  rewrite invoke_writable by done. by destruct (res (highspy.run h)) as [[]|].
Qed.

Lemma run_highs_returned env model timelimit w r w' :
  writable w ->
  run_highs env model timelimit w = (Ok r, w') ->
  let h := highs env model timelimit in
  exists info,
    res (highspy.getInfo h) = Ok info /\
    solver r = "HiGHS " +:+ pretty (highspy.HIGHS_VERSION_MAJOR h) +:+ "."
               +:+ pretty (highspy.HIGHS_VERSION_MINOR h) +:+ "."
               +:+ pretty (highspy.HIGHS_VERSION_PATCH h) /\
    res (highspy.modelStatusToString h) = Ok (status r) /\
    gap r = highspy.mip_gap info /\
    objective r = highspy.objective_function_value info.
Proof.
  intros Hw H. unfold run_highs in H. cbv zeta in H.
  do 3 step_in H.
  rewrite (highs_log_removed (fun _ => _)) in H.
  step_in H.
  rewrite (Highs_run_steps _ _ (fun _ => _)) in H by writable_tac.
  cbv zeta in H. revert H.
  destruct (res (highspy.run _)) eqn:Er; intros H; [|discriminate H].
  do 4 step_in H. finish_in H.
Qed.

(** ** Output capture *)

Lemma write_all_captured (writes : list string) :
  forall w id acc ph,
    sys_stdout w = Buffer id ->
    heap w !! id = Some {| getvalue := acc; write_attr := Some (CodeOf ph);
                           closed := false |} ->
    exists w',
      write_all writes w = (Ok tt, w') /\
      ui_log w' = (ui_log w ++ map (UiPlaceholderCode ph) (running acc writes))%list /\
      sys_stdout w' = Buffer id.
Proof.
  unfold write_all.
  induction writes as [|s writes IH]; intros w id acc ph Hout Hbuf.
  - exists w. simpl. by rewrite app_nil_r.
  - set (b' := {| getvalue := acc +:+ s; write_attr := Some (CodeOf ph);
                  closed := false |}).
    set (w1 := set_ui_log (ui_log w ++ [UiPlaceholderCode ph (acc +:+ s)])%list
                 (set_heap (<[id := b']> (heap w)) w)).
    assert (Hstep : sys_stdout_write s w = (Ok (Z.of_nat (String.length s)), w1)).
    { unfold sys_stdout_write, stream_write. rewrite Hout, Hbuf. simpl.
      unfold new_write, bind, StringIO_write, StringIO_getvalue.
      rewrite Hbuf. simpl.
      rewrite list_lookup_insert_eq by (by eapply lookup_lt_Some).
      reflexivity. }
    destruct (IH w1 id (acc +:+ s) ph) as (w' & Hrun & Hlog & Hout').
    { exact Hout. }
    { simpl. by rewrite list_lookup_insert_eq by (by eapply lookup_lt_Some). }
    exists w'. split; [|split; [|exact Hout']].
    + simpl. unfold bind at 1 2. rewrite Hstep. simpl. exact Hrun.
    + rewrite Hlog. simpl. by rewrite <- app_assoc.
Qed.

Lemma running_length acc writes : length (running acc writes) = length writes.
Proof.
  revert acc. induction writes as [|s writes IH]; intros acc; simpl; [done|].
  by rewrite IH.
Qed.

Lemma string_app_assoc (a b c : string) : (a +:+ b) +:+ c = a +:+ (b +:+ c).
Proof.
  induction a as [|ch a IH]; [done|].
  change (String ch ((a +:+ b) +:+ c) = String ch (a +:+ b +:+ c)).
  by f_equal.
Qed.

Lemma running_lookup writes :
  forall acc k s,
    writes !! k = Some s ->
    running acc writes !! k = Some (acc +:+ join (take k writes) +:+ s).
Proof.
  induction writes as [|s0 writes IH]; intros acc k s Hk; [done|].
  destruct k as [|k]; simpl in *.
  - injection Hk as ->. done.
  - rewrite (IH _ _ _ Hk). by rewrite !string_app_assoc.
Qed.

Lemma sink_calls_app ph (l1 l2 : list ui_event) :
  sink_calls ph (l1 ++ l2) = (sink_calls ph l1 ++ sink_calls ph l2)%list.
Proof. apply omap_app. Qed.

Lemma sink_calls_map ph texts :
  sink_calls ph (map (UiPlaceholderCode ph) texts) = texts.
Proof.
  induction texts as [|t texts IH]; [done|].
  unfold sink_calls in *. simpl. rewrite decide_True by done. simpl.
  f_equal. exact IH.
Qed.

(** C4: whatever the body of a [with st_capture(output_func):] region does
    and however it ends, by returning or by raising, [sys.stdout] points
    after the region to what it pointed to before it; the region itself
    ends the way its body ended. *)
Theorem st_capture_restores_stdout {A} (output_func : callable) (body : M A)
    (w : world) :
  sys_stdout (st_capture output_func body w).2 = sys_stdout w /\
  (st_capture output_func body w).1 = (body (capture_enter output_func w)).1.
Proof. rewrite st_capture_unfold. split; reflexivity. Qed.

(** C5: a region that makes the writes [writes] to standard output ends
    normally, and the sink was called once per write, in order: the call
    for the k-th write was handed all that was written up to and including
    it, so no write is left out. *)
Theorem st_capture_forwards_every_write (ph : nat) (writes : list string)
    (w : world) :
  exists w',
    st_capture (CodeOf ph) (write_all writes) w = (Ok tt, w') /\
    ui_log w' = (ui_log w ++ map (UiPlaceholderCode ph) (running "" writes))%list /\
    sink_calls ph (ui_log w') = (sink_calls ph (ui_log w) ++ running "" writes)%list /\
    length (running "" writes) = length writes /\
    forall k s, writes !! k = Some s ->
                running "" writes !! k = Some (join (take k writes) +:+ s).
Proof.
  destruct (write_all_captured writes (capture_enter (CodeOf ph) w)
              (length (heap w)) "" ph) as (w2 & Hrun & Hlog & _).
  { reflexivity. }
  { rewrite capture_enter_heap. by rewrite list_lookup_middle. }
  exists (capture_leave (sys_stdout w) (length (heap w)) w2).
  rewrite st_capture_unfold, Hrun. simpl.
  assert (Hlog' : ui_log w2 =
                  (ui_log w ++ map (UiPlaceholderCode ph) (running "" writes))%list)
    by exact Hlog.
  split; [reflexivity|]. split; [exact Hlog'|]. split; [|split].
  - by rewrite Hlog', sink_calls_app, sink_calls_map.
  - apply running_length.
  - intros k s Hk. by rewrite (running_lookup _ "" _ _ Hk).
Qed.

(** Three lines written in a region reach the sink, in order. *)
Example st_capture_three_lines :
  sink_calls 0
    (ui_log (st_capture (CodeOf 0) (write_all ["one;"; "two;"; "three;"])
               fresh_world).2)
  = ["one;"; "one;two;"; "one;two;three;"].
Proof. reflexivity. Qed.

(** ** The adapters, call by call *)

(** One library call of an adapter, known to return. *)
Ltac step :=
  first
    [ rewrite bind_try_invoke by writable_tac
    | rewrite bind_invoke by writable_tac;
      match goal with
      | H : res ?c = _ |- context [match res ?c with _ => _ end] => rewrite H
      end ].

Ltac open_calls :=
  unfold gurobi_calls_return, scip_solve_returns, scip_queries_return,
    cbc_solve_returns, highs_setup_returns, highs_run_returns in *;
  repeat match goal with
         | H : _ /\ _ |- _ => destruct H
         | H : completes _ |- _ => destruct H as [? ?]
         end.

Lemma run_cbc_returns env model timelimit w :
  writable w ->
  cbc_solve_returns (cbc env model timelimit) ->
  completes (mip.gap (cbc env model timelimit)) ->
  completes (mip.objective_value (cbc env model timelimit)) ->
  exists r w',
    run_cbc env model timelimit w = (Ok r, w') /\
    iterations r = PNone /\ nodes r = PNone.
Proof.
  intros Hw Hsolve Hgap Hobj. open_calls.
  unfold run_cbc. cbv zeta. do 2 step.
  unfold bind at 1, time_time at 1. step.
  unfold bind at 1, time_time at 1. do 2 step.
  unfold pure. do 2 eexists. split; [reflexivity|]. by split.
Qed.

Lemma run_gurobi_returns env model timelimit w code :
  writable w ->
  gurobi_calls_return (gurobipy env model timelimit) ->
  res (gp.Status (gurobipy env model timelimit)) = Ok code ->
  is_Some (statuscodes !! code) ->
  exists r w',
    run_gurobi env model timelimit w = (Ok r, w') /\
    gap r = caught (res (gp.MIPGap (gurobipy env model timelimit))) /\
    objective r = caught (res (gp.ObjVal (gurobipy env model timelimit))).
Proof.
  intros Hw Hcalls Hcode [name Hname].
  open_calls. unfold run_gurobi. cbv zeta. do 10 step.
  unfold bind, dict_getitem. rewrite Hname. unfold pure.
  do 2 eexists. split; [reflexivity|]. by split.
Qed.

Lemma run_pyscipopt_returns env model timelimit w :
  writable w ->
  scip_solve_returns (scip env model timelimit) ->
  scip_queries_return (scip env model timelimit) ->
  completes (pyscipopt.getGap (scip env model timelimit)) ->
  completes (pyscipopt.getStatus (scip env model timelimit)) ->
  exists r w',
    run_pyscipopt env model timelimit w = (Ok r, w') /\
    objective r = caught (res (pyscipopt.getObjVal (scip env model timelimit))).
Proof.
  intros Hw Hsolve Hqueries Hgap Hstatus.
  open_calls. unfold run_pyscipopt. cbv zeta. do 13 step.
  unfold pure. do 2 eexists. split; reflexivity.
Qed.

Lemma highs_log_written (f : gmap string string) (text : string) :
  <["highs.log" := default "" (delete "highs.log" f !! "highs.log") +:+ text]>
    (delete "highs.log" f) !! "highs.log" = Some text.
Proof. by rewrite lookup_insert_eq, lookup_delete_eq. Qed.

Lemma run_highs_returns env model timelimit w :
  writable w ->
  highs_setup_returns (highs env model timelimit) ->
  highs_run_returns (highs env model timelimit) ->
  exists r w',
    run_highs env model timelimit w = (Ok r, w') /\
    read_file "highs.log" w'
    = (Ok (highspy.run_log (highs env model timelimit)), w').
Proof.
  intros Hw Hsetup Hrun. open_calls. unfold run_highs. cbv zeta. do 3 step.
  rewrite (highs_log_removed (fun _ => _)). step.
  rewrite (Highs_run_steps _ _ (fun _ => _)) by writable_tac. cbv zeta.
  match goal with H : res (highspy.run _) = _ |- _ => rewrite H end.
  do 4 step. unfold pure. do 2 eexists. split; [reflexivity|].
  unfold read_file. repeat (rewrite after_files; cbn [files set_files]).
  by rewrite highs_log_written.
Qed.

(** [highs.log] is there when [run_highs] has returned. *)
Lemma run_highs_returned_log env model timelimit w r w' :
  writable w ->
  run_highs env model timelimit w = (Ok r, w') ->
  files w' !! "highs.log" = Some (highspy.run_log (highs env model timelimit)).
Proof.
  intros Hw H. unfold run_highs in H. cbv zeta in H.
  do 3 step_in H.
  rewrite (highs_log_removed (fun _ => _)) in H.
  step_in H.
  rewrite (Highs_run_steps _ _ (fun _ => _)) in H by writable_tac.
  cbv zeta in H. revert H.
  destruct (res (highspy.run _)) eqn:Er; intros H; [|discriminate H].
  do 4 step_in H. unfold pure in H. injection H as _ <-.
  repeat (rewrite after_files; cbn [files set_files]).
  apply highs_log_written.
Qed.

(** C7: a record returned by [run_cbc] has [None] under "iterations" and
    under "nodes", not a number; and [run_cbc] does return one when its
    library calls return. *)
Theorem run_cbc_reports_no_counts (env : environment) (model : string)
    (timelimit : Z) (w : world) :
  (forall r w',
      run_cbc env model timelimit w = (Ok r, w') ->
      iterations r = PNone /\ nodes r = PNone) /\
  (writable w ->
   cbc_solve_returns (cbc env model timelimit) ->
   completes (mip.gap (cbc env model timelimit)) ->
   completes (mip.objective_value (cbc env model timelimit)) ->
   exists r w',
     run_cbc env model timelimit w = (Ok r, w') /\
     iterations r = PNone /\ nodes r = PNone).
Proof.
  split.
  - intros r w' H. unfold run_cbc in H. cbv zeta in H.
    do 7 (apply bind_inv_ok in H as (? & ? & _ & H)).
    unfold pure in H. by injection H as <- _.
  - apply run_cbc_returns.
Qed.

Lemma run_cbc_reports_no_counts_witness :
  exists r w',
    run_cbc demo_env "model.mps" 10 fresh_world = (Ok r, w') /\
    iterations r = PNone /\ nodes r = PNone.
Proof.
  apply (run_cbc_reports_no_counts demo_env "model.mps" 10 fresh_world).
  - exact I.
  - repeat split; eexists; reflexivity.
  - eexists; reflexivity.
  - eexists; reflexivity.
Defined.

Lemma statuscodes_domain (k : Z) :
  is_Some (statuscodes !! k) <-> (1 <= k <= 17)%Z.
Proof.
  split.
  - intros [name H]. unfold statuscodes in H.
    apply elem_of_list_to_map_2 in H.
    repeat (apply elem_of_cons in H as [H|H]; [injection H as -> _; lia|]).
    by apply elem_of_nil in H.
  - intros H.
    assert (k = 1 \/ k = 2 \/ k = 3 \/ k = 4 \/ k = 5 \/ k = 6 \/ k = 7 \/
            k = 8 \/ k = 9 \/ k = 10 \/ k = 11 \/ k = 12 \/ k = 13 \/
            k = 14 \/ k = 15 \/ k = 16 \/ k = 17)%Z as Hk by lia.
    repeat (destruct Hk as [->|Hk]; [vm_compute; eauto|]).
    subst k. vm_compute. eauto.
Qed.



(** C9: when the HiGHS object was set up, [highs.log] holds after
    [run_highs] what this run logged and nothing else, whatever the file
    held before, because the file is removed before [h.run()] appends to
    it; and when the remaining calls return, [run_highs] returns and the
    read of [highs.log] that follows gives this run's log. *)
Theorem run_highs_log_is_this_run (env : environment) (model : string)
    (timelimit : Z) (w : world) :
  let h := highs env model timelimit in
  writable w ->
  highs_setup_returns h ->
  files (run_highs env model timelimit w).2 !! "highs.log"
    = Some (highspy.run_log h) /\
  (highs_run_returns h ->
   exists r w',
     run_highs env model timelimit w = (Ok r, w') /\
     read_file "highs.log" w' = (Ok (highspy.run_log h), w')).
Proof.
  intros h Hw Hsetup. subst h.
  split; [|by apply run_highs_returns].
  open_calls. unfold run_highs. cbv zeta. do 3 step.
  rewrite (highs_log_removed (fun _ => _)). step.
  rewrite (Highs_run_steps _ _ (fun _ => _)) by writable_tac. cbv zeta.
  destruct (res (highspy.run _)) as [[]|e].
  - match goal with
    | |- files (?m ?w0).2 !! _ = _ =>
        assert (Hk : respects (same files) m) by (repeat respects_step);
        specialize (Hk w0); unfold same in Hk; rewrite Hk
    end.
    repeat (rewrite after_files; cbn [files set_files]).
    apply highs_log_written.
  - cbn [snd]. repeat (rewrite after_files; cbn [files set_files]).
    apply highs_log_written.
Qed.

Lemma run_highs_log_is_this_run_witness :
  files (run_highs demo_env "model.mps" 10 stale_world).2 !! "highs.log"
    = Some "Running HiGHS; Optimal" /\
  exists r w',
    run_highs demo_env "model.mps" 10 stale_world = (Ok r, w') /\
    read_file "highs.log" w' = (Ok "Running HiGHS; Optimal", w').
Proof.
  assert (Hw : writable stale_world) by exact I.
  assert (Hs : highs_setup_returns (highs demo_env "model.mps" 10)).
  { repeat split; eexists; reflexivity. }
  destruct (run_highs_log_is_this_run demo_env "model.mps" 10 stale_world Hw Hs)
    as [Hlog Hret].
  split; [exact Hlog|]. apply Hret.
  repeat split; eexists; reflexivity.
Defined.

(** ** Errors of metric queries *)



(** ** The solver loop *)

Lemma steady_set_files w f : steady w (set_files f w).
Proof. split; [reflexivity|]. intros id b H. by exists b. Qed.

Lemma capture_pass_result env model timelimit tabs i s run w o w' :
  run_adapter env model timelimit s = Some run ->
  respects (same results_list) run ->
  capture_pass tabs i run w = (o, w') ->
  pass_result env model timelimit s w o w'.
Proof.
  intros Hs Hrun H. unfold capture_pass, bind at 1, subscript in H.
  destruct (tabs !! (i + 1)%nat) as [tab|];
    [|injection H as <- <-; by apply pass_raised].
  unfold pure, bind at 1, st_empty in H. rewrite st_capture_unfold in H.
  set (w2 := capture_enter _ _) in H.
  pose proof (capture_enter_writable (CodeOf (length (ui_log w)))
                (set_ui_log (ui_log w ++ [UiEmpty tab (length (ui_log w))]) w))
    as Hw2.
  pose proof (Hrun w2) as Hsame. unfold same in Hsame.
  unfold bind in H. fold w2 in Hw2.
  destruct (run w2) as [[r|e] w3] eqn:E; simpl in H, Hsame;
    injection H as <- <-.
  - apply pass_appended with r.
    + simpl. by rewrite Hsame.
    + by exists run, w2, w3.
  - apply pass_raised. simpl. by rewrite Hsame.
Qed.

Lemma highs_pass_result env model timelimit tabs i w o w' :
  writable w ->
  highs_pass env model timelimit tabs i w = (o, w') ->
  pass_result env model timelimit "HiGHS" w o w'.
Proof.
  intros Hw H. unfold highs_pass, bind at 1, subscript in H.
  destruct (tabs !! (i + 1)%nat) as [tab|];
    [|injection H as <- <-; by apply pass_raised].
  unfold pure, bind at 1 in H.
  pose proof (respects_run_highs (same results_list) env model timelimit
                (fun _ _ => eq_refl) w) as Hsame.
  destruct (run_highs env model timelimit w) as [[r|e] w1] eqn:E;
    unfold same in Hsame; simpl in Hsame;
    [|injection H as <- <-; by apply pass_raised].
  apply pass_appended with r.
  - unfold bind, results_list_append, read_file, st_code, ui_emit in H.
    destruct (files _ !! "highs.log"); injection H as <- <-;
      simpl; by rewrite Hsame.
  - by exists (run_highs env model timelimit), w, w1.
Qed.

Lemma loop_body_result env model timelimit tabs i s w o w' :
  s ∈ options ->
  writable w ->
  loop_body env model timelimit tabs i s w = (o, w') ->
  pass_result env model timelimit s w o w'.
Proof.
  intros Hs Hw. unfold options in Hs.
  repeat (apply elem_of_cons in Hs as [->|Hs]).
  - rewrite loop_body_Gurobi.
    apply capture_pass_result; [done | apply respects_run_gurobi; apply _].
  - rewrite loop_body_HiGHS. by apply highs_pass_result.
  - rewrite loop_body_SCIP.
    apply capture_pass_result; [done | apply respects_run_pyscipopt; apply _].
  - rewrite loop_body_CBC.
    apply capture_pass_result; [done | apply respects_run_cbc; apply _].
  - by apply elem_of_nil in Hs.
Qed.

Lemma loop_body_steady env model timelimit tabs i s :
  respects steady (loop_body env model timelimit tabs i s).
Proof.
  unfold loop_body.
  repeat first
    [ match goal with
      | |- respects _ (if ?b then _ else _) => destruct b
      end
    | apply respects_pure; apply _
    | apply respects_subscript; apply _
    | apply respects_st_empty; apply _
    | apply respects_st_code; apply _
    | apply respects_read_file; apply _
    | apply st_capture_steady
    | apply respects_results_list_append
    | apply respects_run_gurobi; apply _
    | apply respects_run_pyscipopt; apply _
    | apply respects_run_cbc; apply _
    | apply respects_run_highs; [apply _ | apply _ | apply steady_set_files]
    | simple apply respects_bind; [apply _ | | intros ?] ].
Qed.

(** The loop from position [k] on: the records added to [results_list]
    are those of the first solvers, one each and in their order, and of all
    of them when the loop ends normally. *)
Lemma solver_loop_from env model timelimit tabs (solvers : list string) :
  forall k w o w',
    Forall (fun s => s ∈ options) solvers ->
    writable w ->
    for_each (fun '(i, s) => loop_body env model timelimit tabs i s)
      (zip (seq k (length solvers)) solvers) w = (o, w') ->
    exists rs,
      results_list w' = (results_list w ++ rs)%list /\
      Forall2 (produced_by env model timelimit) (take (length rs) solvers) rs /\
      (o = Ok tt -> length rs = length solvers).
Proof.
  induction solvers as [|s l IH]; intros k w o w' Hopt Hw H.
  - injection H as <- <-. exists []. simpl. rewrite app_nil_r.
    split; [done|]. split; [constructor|done].
  - inversion Hopt as [|? ? Hs Hl]; subst.
    cbn [length seq zip zip_with for_each] in H. unfold bind at 1 in H.
    pose proof (loop_body_steady env model timelimit tabs k s w) as Hst.
    destruct (loop_body env model timelimit tabs k s w) as [o1 w1] eqn:E.
    pose proof (loop_body_result _ _ _ _ _ _ _ _ _ Hs Hw E) as Hp.
    simpl in Hst.
    inversion Hp as [e w1' Hres|o' r w1' Hres Hprod]; subst.
    + injection H as <- <-. exists []. simpl. rewrite app_nil_r.
      split; [done|]. split; [constructor|done].
    + destruct o1 as [[]|e].
      * destruct (IH (S k) w1 o w' Hl) as (rs & Hrs & Hall & Hlen);
          [by eapply steady_writable | exact H |].
        exists (r :: rs). split; [|split].
        -- rewrite Hrs, Hres. by rewrite <- app_assoc.
        -- simpl. by constructor.
        -- intros Hok. simpl. f_equal. by apply Hlen.
      * injection H as <- <-. exists [r]. simpl. split; [done|].
        split; [|done]. constructor; [done | constructor].
Qed.

Lemma solver_loop_records env model timelimit tabs solvers w o w' :
  solvers ⊆ options ->
  writable w ->
  solver_loop env model timelimit tabs solvers w = (o, w') ->
  exists rs,
    results_list w' = (results_list w ++ rs)%list /\
    Forall2 (produced_by env model timelimit) (take (length rs) solvers) rs /\
    (o = Ok tt -> length rs = length solvers).
Proof.
  intros Hopt Hw H. eapply solver_loop_from; [|done|exact H].
  apply Forall_forall. intros s Hs. by apply Hopt.
Qed.

Lemma run_adapter_cases env model timelimit s m :
  run_adapter env model timelimit s = Some m ->
  m = run_gurobi env model timelimit \/ m = run_highs env model timelimit \/
  m = run_pyscipopt env model timelimit \/ m = run_cbc env model timelimit.
Proof.
  unfold run_adapter. intros H.
  repeat match type of H with
         | (if ?b then _ else _) = _ => destruct b
         end; try discriminate; injection H as <-; auto.
Qed.

Lemma capture_pass_returns tabs i run w :
  (i + 1 < length tabs)%nat ->
  (forall w0, writable w0 -> exists r w0', run w0 = (Ok r, w0')) ->
  exists w', capture_pass tabs i run w = (Ok tt, w').
Proof.
  intros Hi Hrun. unfold capture_pass, bind at 1, subscript.
  destruct (lookup_lt_is_Some_2 tabs (i + 1) Hi) as [tab ->].
  unfold pure, bind at 1, st_empty. rewrite st_capture_unfold.
  match goal with
  | |- context [capture_enter ?f ?w1] =>
      destruct (Hrun (capture_enter f w1) (capture_enter_writable f w1))
        as (r & w3 & E)
  end.
  unfold bind. rewrite E. simpl. by eexists.
Qed.

Lemma loop_body_returns env model timelimit tabs i s w :
  s ∈ options ->
  writable w ->
  (i + 1 < length tabs)%nat ->
  adapters_return env model timelimit [s] ->
  exists w', loop_body env model timelimit tabs i s w = (Ok tt, w').
Proof.
  intros Hs Hw Hi Hret.
  assert (Hrun : forall m, run_adapter env model timelimit s = Some m ->
                 forall w0, writable w0 -> exists r w0', m w0 = (Ok r, w0')).
  { intros m Hm w0 Hw0. apply (Hret s m w0); [apply list_elem_of_here | done..]. }
  clear Hret. unfold options in Hs.
  repeat (apply elem_of_cons in Hs as [-> | Hs]).
  - rewrite loop_body_Gurobi. apply capture_pass_returns; [done|].
    by apply Hrun.
  - rewrite loop_body_HiGHS. unfold highs_pass, bind at 1, subscript.
    destruct (lookup_lt_is_Some_2 tabs (i + 1) Hi) as [tab ->].
    unfold pure, bind at 1.
    destruct (Hrun _ eq_refl w Hw) as (r & w1 & E). rewrite E.
    unfold bind, results_list_append, read_file, st_code, ui_emit.
    cbn [files set_results_list].
    rewrite (run_highs_returned_log _ _ _ _ _ _ Hw E). by eexists.
  - rewrite loop_body_SCIP. apply capture_pass_returns; [done|].
    by apply Hrun.
  - rewrite loop_body_CBC. apply capture_pass_returns; [done|].
    by apply Hrun.
  - by apply elem_of_nil in Hs.
Qed.

Lemma solver_loop_from_returns env model timelimit tabs (solvers : list string) :
  forall k w,
    Forall (fun s => s ∈ options) solvers ->
    adapters_return env model timelimit solvers ->
    writable w ->
    (k + length solvers < length tabs)%nat ->
    exists w',
      for_each (fun '(i, s) => loop_body env model timelimit tabs i s)
        (zip (seq k (length solvers)) solvers) w = (Ok tt, w').
Proof.
  induction solvers as [|s l IH]; intros k w Hopt Hret Hw Hk.
  - by exists w.
  - inversion Hopt as [|? ? Hs Hl]; subst. simpl in Hk.
    cbn [length seq zip zip_with for_each].
    destruct (loop_body_returns env model timelimit tabs k s w Hs Hw)
      as [w1 E]; [lia | |].
    { intros s' m w0 Hs'%list_elem_of_singleton. subst s'.
      apply Hret, list_elem_of_here. }
    pose proof (loop_body_steady env model timelimit tabs k s w) as Hst.
    rewrite E in Hst. simpl in Hst.
    rewrite (bind_ok _ _ _ _ _ E).
    apply IH; [done | | by eapply steady_writable | lia].
    intros s' m w0 Hs'. by apply Hret, list_elem_of_further.
Qed.

Lemma solver_loop_ok_records env model timelimit tabs solvers w w' :
  solvers ⊆ options ->
  writable w ->
  solver_loop env model timelimit tabs solvers w = (Ok tt, w') ->
  exists rs,
    results_list w' = (results_list w ++ rs)%list /\
    length rs = length solvers /\
    Forall2 (produced_by env model timelimit) solvers rs.
Proof.
  intros Hopt Hw Hrun.
  destruct (solver_loop_records _ _ _ _ _ _ _ _ Hopt Hw Hrun)
    as (rs & Hrs & Hall & Hlen).
  specialize (Hlen eq_refl).
  exists rs. split; [done|]. split; [done|].
  by rewrite Hlen, take_ge in Hall.
Qed.

(** C3: when the loop over a selection ends normally, [results_list] has
    grown by exactly one record per selected solver, the k-th new record
    being the one the adapter of the k-th selected solver returned; and
    when the adapters of the selected solvers return, the loop of the
    script, entered with an empty list, does end normally, with exactly
    these records in the list. *)
Theorem solver_loop_one_record_per_solver (env : environment) (model : string)
    (timelimit : Z) (solvers : list string) :
  solvers ⊆ options ->
  (forall tabs w w',
      writable w ->
      solver_loop env model timelimit tabs solvers w = (Ok tt, w') ->
      exists rs,
        results_list w' = (results_list w ++ rs)%list /\
        length rs = length solvers /\
        Forall2 (produced_by env model timelimit) solvers rs) /\
  (forall w,
      writable w ->
      adapters_return env model timelimit solvers ->
      exists w',
        solver_loop env model timelimit (seq 0 (S (length solvers))) solvers
          (loop_entry solvers w) = (Ok tt, w') /\
        length (results_list w') = length solvers /\
        Forall2 (produced_by env model timelimit) solvers (results_list w')).
Proof.
  intros Hopt.
  assert (Hrecords := fun tabs w w' =>
            solver_loop_ok_records env model timelimit tabs solvers w w' Hopt).
  split; [exact Hrecords|].
  intros w Hw Hret.
  destruct (solver_loop_from_returns env model timelimit
              (seq 0 (S (length solvers))) solvers 0 (loop_entry solvers w))
    as [w' Hrun]; [by apply Forall_forall | done | done | |].
  { rewrite length_seq. lia. }
  exists w'. split; [exact Hrun|].
  destruct (Hrecords _ _ _ (Hw : writable (loop_entry solvers w)) Hrun)
    as (rs & Hrs & Hlen & Hall).
  simpl in Hrs. subst rs. by split.
Qed.

(** The adapters of the small installation return. *)
Lemma demo_adapters_return model timelimit solvers :
  adapters_return demo_env model timelimit solvers.
Proof.
  intros s m w _ Hm Hw.
  destruct (run_adapter_cases _ _ _ _ _ Hm) as [-> | [-> | [-> | ->]]].
  - destruct (run_gurobi_returns demo_env model timelimit w 2 Hw)
      as (r & w' & E & _);
      [repeat split; eexists; reflexivity | reflexivity
      | by exists "OPTIMAL" | by exists r, w'].
  - destruct (run_highs_returns demo_env model timelimit w Hw)
      as (r & w' & E & _);
      [repeat split; eexists; reflexivity..| by exists r, w'].
  - destruct (run_pyscipopt_returns demo_env model timelimit w Hw)
      as (r & w' & E & _);
      [repeat split; eexists; reflexivity..| by exists r, w'].
  - destruct (run_cbc_returns demo_env model timelimit w Hw)
      as (r & w' & E & _);
      [repeat split; eexists; reflexivity..| by exists r, w'].
Qed.

Lemma solver_loop_one_record_per_solver_witness :
  exists w',
    solver_loop demo_env "model.mps" 10 (seq 0 5) options
      (loop_entry options fresh_world) = (Ok tt, w') /\
    length (results_list w') = 4%nat /\
    Forall2 (produced_by demo_env "model.mps" 10) options (results_list w').
Proof.
  assert (Hopt : options ⊆ options) by (intros s Hs; exact Hs).
  apply (proj2 (solver_loop_one_record_per_solver demo_env "model.mps" 10
                  options Hopt) fresh_world).
  - exact I.
  - apply demo_adapters_return.
Defined.

(** ** The order of the selection *)

(** Two records of the same adapter agree on label, status and objective,
    wherever the adapter was called. *)
Lemma produced_by_core env model timelimit s r1 r2 :
  produced_by env model timelimit s r1 ->
  produced_by env model timelimit s r2 ->
  core r1 = core r2.
Proof.
  intros (m1 & w1 & w1' & Hm1 & Hw1 & H1) (m2 & w2 & w2' & Hm2 & Hw2 & H2).
  rewrite Hm1 in Hm2. injection Hm2 as <-.
  unfold core.
  destruct (run_adapter_cases _ _ _ _ _ Hm1) as [-> | [-> | [-> | ->]]].
  - destruct (run_gurobi_returned _ _ _ _ _ _ Hw1 H1)
      as (v1 & c1 & n1 & Ev1 & Hl1 & Ec1 & En1 & Hs1 & _ & Ho1).
    destruct (run_gurobi_returned _ _ _ _ _ _ Hw2 H2)
      as (v2 & c2 & n2 & Ev2 & Hl2 & Ec2 & En2 & Hs2 & _ & Ho2).
    rewrite Hl1, Hl2, Hs1, Hs2, Ho1, Ho2. congruence.
  - destruct (run_highs_returned _ _ _ _ _ _ Hw1 H1)
      as (i1 & Ei1 & Hl1 & Es1 & _ & Ho1).
    destruct (run_highs_returned _ _ _ _ _ _ Hw2 H2)
      as (i2 & Ei2 & Hl2 & Es2 & _ & Ho2).
    rewrite Hl1, Hl2, Ho1, Ho2. congruence.
  - destruct (run_pyscipopt_returned _ _ _ _ _ _ Hw1 H1)
      as (v1 & Ev1 & Hl1 & Es1 & _ & Ho1).
    destruct (run_pyscipopt_returned _ _ _ _ _ _ Hw2 H2)
      as (v2 & Ev2 & Hl2 & Es2 & _ & Ho2).
    rewrite Hl1, Hl2, Ho1, Ho2. congruence.
  - destruct (run_cbc_returned _ _ _ _ _ _ Hw1 H1)
      as (Hl1 & _ & _ & Es1 & _ & Eo1).
    destruct (run_cbc_returned _ _ _ _ _ _ Hw2 H2)
      as (Hl2 & _ & _ & Es2 & _ & Eo2).
    rewrite Hl1, Hl2. congruence.
Qed.

Lemma solver_loop_lookup env model timelimit tabs solvers w i r :
  solvers ⊆ options ->
  writable w ->
  results_list w = [] ->
  results_list (solver_loop env model timelimit tabs solvers w).2 !! i = Some r ->
  exists s, solvers !! i = Some s /\ produced_by env model timelimit s r.
Proof.
  intros Hopt Hw Hempty Hr.
  destruct (solver_loop env model timelimit tabs solvers w) as [o w'] eqn:E.
  destruct (solver_loop_records _ _ _ _ _ _ _ _ Hopt Hw E)
    as (rs & Hrs & Hall & _).
  simpl in Hr. rewrite Hrs, Hempty in Hr. simpl in Hr.
  destruct (Forall2_lookup_r _ _ _ _ _ Hall Hr) as (s & Hs & Hprod).
  apply lookup_take_Some in Hs as [Hs _]. by exists s.
Qed.

(** C8: a solver's record agrees on label, status and objective in any
    two runs of the loop for the same model and time limit, wherever the
    solver stands in the two selections and whatever state the runs start
    in: the record at the solver's position in one run and the record at
    its position in the other have the same (solver, status, objective). *)
Theorem record_core_independent_of_position (env : environment)
    (model : string) (timelimit : Z) (tabs1 tabs2 : list nat)
    (solvers1 solvers2 : list string) (w1 w2 : world) (i j : nat) (s : string)
    (r1 r2 : result_record) :
  solvers1 ⊆ options -> solvers2 ⊆ options ->
  writable w1 -> writable w2 ->
  results_list w1 = [] -> results_list w2 = [] ->
  solvers1 !! i = Some s -> solvers2 !! j = Some s ->
  results_list (solver_loop env model timelimit tabs1 solvers1 w1).2 !! i
    = Some r1 ->
  results_list (solver_loop env model timelimit tabs2 solvers2 w2).2 !! j
    = Some r2 ->
  core r1 = core r2.
Proof.
  intros Ho1 Ho2 Hw1 Hw2 He1 He2 Hs1 Hs2 Hr1 Hr2.
  destruct (solver_loop_lookup _ _ _ _ _ _ _ _ Ho1 Hw1 He1 Hr1)
    as (s1 & Hs1' & Hp1).
  destruct (solver_loop_lookup _ _ _ _ _ _ _ _ Ho2 Hw2 He2 Hr2)
    as (s2 & Hs2' & Hp2).
  assert (s1 = s) as -> by congruence.
  assert (s2 = s) as -> by congruence.
  by eapply produced_by_core.
Qed.

Lemma record_core_independent_of_position_witness :
  let first := solver_loop demo_env "model.mps" 10 (seq 0 3) ["HiGHS"; "CBC"]
                 (loop_entry ["HiGHS"; "CBC"] fresh_world) in
  let second := solver_loop demo_env "model.mps" 10 (seq 0 3) ["CBC"; "HiGHS"]
                  (loop_entry ["CBC"; "HiGHS"] first.2) in
  exists r1 r2,
    results_list first.2 !! 1%nat = Some r1 /\
    results_list second.2 !! 0%nat = Some r2 /\
    core r1 = core r2.
Proof.
  intros first second.
  let r := eval vm_compute in (results_list first.2 !! 1%nat) in
  match r with Some ?x => exists x end.
  let r := eval vm_compute in (results_list second.2 !! 0%nat) in
  match r with Some ?x => exists x end.
  assert (H1 : ["HiGHS"; "CBC"] ⊆ options)
    by (apply (bool_decide_unpack _); by vm_compute).
  assert (H2 : ["CBC"; "HiGHS"] ⊆ options)
    by (apply (bool_decide_unpack _); by vm_compute).
  split; [by vm_compute|]. split; [by vm_compute|].
  apply (record_core_independent_of_position demo_env "model.mps" 10
           (seq 0 3) (seq 0 3) ["HiGHS"; "CBC"] ["CBC"; "HiGHS"]
           (loop_entry ["HiGHS"; "CBC"] fresh_world)
           (loop_entry ["CBC"; "HiGHS"] first.2) 1 0 "CBC").
  - exact H1.
  - exact H2.
  - exact I.
  - by vm_compute.
  - reflexivity.
  - reflexivity.
  - reflexivity.
  - reflexivity.
  - by vm_compute.
  - by vm_compute.
Defined.

(** ** An error in the loop *)

Lemma enumerate_app {A} (l1 l2 : list A) :
  enumerate (l1 ++ l2) = enumerate l1 ++ zip (seq (length l1) (length l2)) l2.
Proof.
  unfold enumerate. rewrite length_app, seq_app. simpl.
  apply zip_with_app. by rewrite length_seq.
Qed.

Lemma submitted_run_unfold env model timelimit solvers w :
  submitted_run env model timelimit solvers w =
  match solver_loop env model timelimit (seq 0 (S (length solvers))) solvers
          (loop_entry solvers w) with
  | (Raise e, w1) => (Raise e, w1)
  | (Ok _, w1) =>
      match results_list w1 with
      | [] => (Raise (KeyError (PStr "None of ['solver'] are in the columns")),
               w1)
      | _ :: _ =>
          (Ok tt,
           set_ui_log
             (ui_log w1 ++ [UiDataframe 0 (results_list w1)]
                ++ [UiAltairChart 0 (chart_of (results_list w1))]) w1)
      end
  end.
Proof.
  unfold submitted_run, bind at 1 2. unfold st_tabs, bind at 1, ui_emit, pure.
  change (set_ui_log _ (set_results_list [] w)) with (loop_entry solvers w).
  unfold bind at 1.
  destruct (solver_loop _ _ _ _ _ _) as [[[]|e] w1]; [|reflexivity].
  unfold bind, subscript, DataFrame_set_index_solver. simpl.
  destruct (results_list w1) as [|r rs] eqn:E; [reflexivity|].
  unfold pure, ui_emit, chart_of. simpl. by rewrite <- app_assoc.
Qed.

(** C1 (as the code has it): nothing in the loop catches an error.  When
    the passes for the solvers selected first return and the pass for the
    next one ends in an error, the loop ends there in that error, in the
    state that pass left, so that no adapter is called for the solvers
    selected after it; the run ends in the same error, before the table
    and the chart. *)
Theorem solver_loop_stops_at_first_error (env : environment) (model : string)
    (timelimit : Z) (before : list string) (s : string) (rest : list string)
    (w w1 w2 : world) (e : exn) :
  let solvers := before ++ s :: rest in
  let tabs := seq 0 (S (length solvers)) in
  solver_loop env model timelimit tabs before (loop_entry solvers w)
    = (Ok tt, w1) ->
  loop_body env model timelimit tabs (length before) s w1 = (Raise e, w2) ->
  solver_loop env model timelimit tabs solvers (loop_entry solvers w)
    = (Raise e, w2) /\
  submitted_run env model timelimit solvers w = (Raise e, w2).
Proof.
  intros solvers tabs Hbefore Hpass.
  assert (Hloop : solver_loop env model timelimit tabs solvers
                    (loop_entry solvers w) = (Raise e, w2)).
  { unfold solver_loop in *. subst solvers.
    rewrite enumerate_app, for_each_app.
    rewrite (bind_ok _ _ _ _ _ Hbefore).
    cbn [length seq zip zip_with for_each].
    by rewrite (bind_raise _ _ _ _ _ Hpass). }
  split; [exact Hloop|].
  rewrite submitted_run_unfold. fold solvers. fold tabs. by rewrite Hloop.
Qed.

Lemma solver_loop_stops_at_first_error_witness :
  exists w2,
    submitted_run demo_env_cbc_read_fails "model.mps" 10
      ["HiGHS"; "CBC"; "Gurobi"] fresh_world
    = (Raise (LibraryError "OSError" "cannot read model"), w2) /\
    length (results_list w2) = 1%nat.
Proof.
  pose (solvers := ["HiGHS"; "CBC"; "Gurobi"]).
  pose (w1 := (solver_loop demo_env_cbc_read_fails "model.mps" 10 (seq 0 4)
                 ["HiGHS"] (loop_entry solvers fresh_world)).2).
  pose (w2 := (loop_body demo_env_cbc_read_fails "model.mps" 10 (seq 0 4) 1
                 "CBC" w1).2).
  exists w2. split; [|by vm_compute].
  apply (solver_loop_stops_at_first_error demo_env_cbc_read_fails "model.mps"
           10 ["HiGHS"] "CBC" ["Gurobi"] fresh_world w1 w2).
  - by vm_compute.
  - by vm_compute.
Defined.

(** C1 as the claim has it fails: CBC is selected first and cannot read
    the model; the run ends in that error with no record at all, and
    [highs.log] was never written, although the HiGHS adapter returns a
    record when it is called in the state the run ended in. *)
Lemma error_in_first_adapter_ends_run :
  let run := submitted_run demo_env_cbc_read_fails "model.mps" 10
               ["CBC"; "HiGHS"] fresh_world in
  run.1 = Raise (LibraryError "OSError" "cannot read model") /\
  results_list run.2 = [] /\
  files run.2 !! "highs.log" = None /\
  exists r w',
    run_highs demo_env_cbc_read_fails "model.mps" 10 run.2 = (Ok r, w').
Proof.
  intros run. split; [by vm_compute|]. split; [by vm_compute|].
  split; [by vm_compute|].
  do 2 eexists. vm_compute. reflexivity.
Qed.

(** ** The colours of the chart *)

Lemma produced_by_initial env model timelimit s r :
  produced_by env model timelimit s r ->
  s ∈ options /\ initial (solver r) = initial s.
Proof.
  intros (m & w & w' & Hm & Hw & H). unfold run_adapter in Hm.
  destruct (String.eqb s "Gurobi") eqn:E1.
  { apply String.eqb_eq in E1 as ->. injection Hm as <-.
    destruct (run_gurobi_returned _ _ _ _ _ _ Hw H) as (? & ? & ? & _ & -> & _).
    split; [repeat constructor | reflexivity]. }
  destruct (String.eqb s "HiGHS") eqn:E2.
  { apply String.eqb_eq in E2 as ->. injection Hm as <-.
    destruct (run_highs_returned _ _ _ _ _ _ Hw H) as (? & _ & -> & _).
    split; [repeat constructor | reflexivity]. }
  destruct (String.eqb s "SCIP") eqn:E3.
  { apply String.eqb_eq in E3 as ->. injection Hm as <-.
    destruct (run_pyscipopt_returned _ _ _ _ _ _ Hw H) as (? & _ & -> & _).
    split; [repeat constructor | reflexivity]. }
  destruct (String.eqb s "CBC") eqn:E4; [|discriminate].
  apply String.eqb_eq in E4 as ->. injection Hm as <-.
  destruct (run_cbc_returned _ _ _ _ _ _ Hw H) as (-> & _).
  split; [repeat constructor | reflexivity].
Qed.

Lemma options_initial_inj s1 s2 :
  s1 ∈ options -> s2 ∈ options -> initial s1 = initial s2 -> s1 = s2.
Proof.
  unfold options. intros H1 H2.
  repeat (apply elem_of_cons in H1 as [-> | H1]);
    try (by apply elem_of_nil in H1);
    repeat (apply elem_of_cons in H2 as [-> | H2]);
    try (by apply elem_of_nil in H2); done.
Qed.

Lemma selection_length solvers : selection solvers -> length solvers <= 4.
Proof.
  intros [Hnd Hsub].
  change 4%nat with (length options).
  apply submseteq_length, NoDup_submseteq; [done|]. intros x. apply Hsub.
Qed.

(** X15: the colour scale pairs the labels of the records, in the order
    of the selection, with the four fixed colours in their order; in a run
    that ends normally the bar of the solver selected k-th has the k-th
    colour of the palette, whichever solver that is. *)
Theorem chart_colour_follows_position (env : environment) (model : string)
    (timelimit : Z) (solvers : list string) (w w' : world) (k : nat)
    (s : string) :
  selection solvers ->
  writable w ->
  submitted_run env model timelimit solvers w = (Ok tt, w') ->
  solvers !! k = Some s ->
  exists c r,
    shown_chart w' = Some c /\
    scale_domain c = solver <$> results_list w' /\
    scale_range c = palette /\
    results_list w' !! k = Some r /\
    produced_by env model timelimit s r /\
    scale_color c (solver r) = palette !! k.
Proof.
  intros Hsel Hw Hrun Hk.
  pose proof (selection_length _ Hsel) as Hlen. destruct Hsel as [Hnd Hsub].
  rewrite submitted_run_unfold in Hrun.
  destruct (solver_loop _ _ _ _ _ _) as [[[]|e] w1] eqn:Eloop; [|discriminate].
  destruct (solver_loop_ok_records _ _ _ _ _ _ _ Hsub
              (Hw : writable (loop_entry solvers w)) Eloop)
    as (rs & Hrs & _ & Hall).
  simpl in Hrs.
  destruct (results_list w1) as [|r0 rs0] eqn:Erows; [discriminate|].
  injection Hrun as <-. subst rs.
  destruct (Forall2_lookup_l _ _ _ _ _ Hall Hk) as (r & Hr & Hprod).
  exists (chart_of (r0 :: rs0)), r.
  split.
  { unfold shown_chart. cbn [ui_log set_ui_log snd].
    by rewrite last_app_cons. }
  split; [by rewrite <- Erows|]. split; [done|].
  split; [simpl; by rewrite Erows|]. split; [done|].
  unfold scale_color.
  assert (Hfind : list_find (fun d => d = solver r)
                    (scale_domain (chart_of (r0 :: rs0)))
                  = Some (k, solver r)).
  { apply list_find_Some. split; [|split; [done|]].
    - change ((solver <$> (r0 :: rs0)) !! k = Some (solver r)).
      by rewrite list_lookup_fmap, Hr.
    - intros j y Hy Hlt Heq.
      change ((solver <$> (r0 :: rs0)) !! j = Some y) in Hy.
      rewrite list_lookup_fmap in Hy.
      destruct ((r0 :: rs0) !! j) as [rj|] eqn:Ej; [|discriminate].
      injection Hy as <-.
      destruct (Forall2_lookup_r _ _ _ _ _ Hall Ej) as (sj & Hsj & Hpj).
      destruct (produced_by_initial _ _ _ _ _ Hpj) as [Hoj Hij].
      destruct (produced_by_initial _ _ _ _ _ Hprod) as [Ho Hi].
      assert (sj = s) as ->.
      { apply options_initial_inj; [done..|]. congruence. }
      pose proof (NoDup_lookup _ _ _ _ Hnd Hsj Hk). lia. }
  rewrite Hfind. cbn [scale_range chart_of].
  apply lookup_lt_Some in Hk. f_equal. apply Nat.mod_small.
  change (length palette) with 4%nat. lia.
Qed.

Lemma chart_colour_follows_position_witness :
  exists c r,
    shown_chart
      (submitted_run demo_env "model.mps" 10 ["CBC"; "Gurobi"] fresh_world).2
    = Some c /\
    solver r = "Gurobi 11.0.3" /\
    scale_color c (solver r) = Some "green".
Proof.
  assert (Hsel : selection ["CBC"; "Gurobi"]).
  { split; apply (bool_decide_unpack _); by vm_compute. }
  assert (Hrun : submitted_run demo_env "model.mps" 10 ["CBC"; "Gurobi"]
                   fresh_world
                 = (Ok tt, (submitted_run demo_env "model.mps" 10
                              ["CBC"; "Gurobi"] fresh_world).2))
    by (by vm_compute).
  destruct (chart_colour_follows_position demo_env "model.mps" 10
              ["CBC"; "Gurobi"] fresh_world _ 1 "Gurobi" Hsel I Hrun eq_refl)
    as (c & r & Hc & _ & _ & Hr & Hprod & Hcol).
  exists c, r. split; [exact Hc|].
  split; [|exact Hcol].
  vm_compute in Hr. by injection Hr as <-.
Defined.

(** C6: the script does not give a solver a colour of its own.  The
    palette lists four colours in the order of the four options, and the
    scale is keyed on the solver's label, but its domain is the labels of
    this run in selection order.  With the default selection, all four
    options in their order, Gurobi is drawn in "#DD2113" and HiGHS in
    "green"; HiGHS selected alone, or before Gurobi, is drawn in
    "#DD2113", and Gurobi selected after it in "green". *)
Lemma highs_colour_depends_on_selection :
  let default := submitted_run demo_env "model.mps" 10 options fresh_world in
  let alone := submitted_run demo_env "model.mps" 10 ["HiGHS"] fresh_world in
  let first := submitted_run demo_env "model.mps" 10 ["HiGHS"; "Gurobi"]
                 fresh_world in
  default.1 = Ok tt /\ alone.1 = Ok tt /\ first.1 = Ok tt /\
  (c ← shown_chart default.2; scale_color c "Gurobi 11.0.3")%stdpp
    = Some "#DD2113" /\
  (c ← shown_chart default.2; scale_color c "HiGHS 1.7.2")%stdpp
    = Some "green" /\
  (c ← shown_chart alone.2; scale_color c "HiGHS 1.7.2")%stdpp
    = Some "#DD2113" /\
  (c ← shown_chart first.2; scale_color c "HiGHS 1.7.2")%stdpp
    = Some "#DD2113" /\
  (c ← shown_chart first.2; scale_color c "Gurobi 11.0.3")%stdpp
    = Some "green".
Proof. intros default alone first. repeat split; by vm_compute. Qed.

(** * Further properties of the script *)

(** ** Selections at the edges *)

(** X1: with no solver selected the run calls no adapter and ends in
    the [KeyError] of [set_index("solver")], whose message is "None of
    ['solver'] are in the columns": [results_list] is empty when the loop
    is over, the frame made from it has no column, and neither the table
    nor the chart is shown; the page holds the tabs and nothing else new. *)
Theorem empty_selection_ends_in_KeyError (env : environment) (model : string)
    (timelimit : Z) (w : world) :
  solver_loop env model timelimit (seq 0 1) [] (loop_entry [] w)
  = (Ok tt, loop_entry [] w) /\
  results_list (loop_entry [] w) = [] /\
  ui_log (loop_entry [] w) = ui_log w ++ [UiTabs ["Results"]] /\
  submitted_run env model timelimit [] w
  = (Raise (KeyError (PStr "None of ['solver'] are in the columns")),
     loop_entry [] w).
Proof.
  split; [reflexivity|]. split; [reflexivity|]. split; [reflexivity|].
  rewrite submitted_run_unfold. reflexivity.
Qed.

Lemma loop_body_other env model timelimit tabs i s w :
  s ∉ options -> loop_body env model timelimit tabs i s w = (Ok tt, w).
Proof.
  intros Hs. unfold loop_body.
  assert (Hne : forall name, name ∈ options -> String.eqb s name = false).
  { intros name Hname. apply String.eqb_neq. by intros ->. }
  rewrite !Hne by (unfold options; repeat constructor).
  reflexivity.
Qed.

(** X2: a name that is none of the four options is passed over in
    silence: its pass calls no adapter, adds no record, shows nothing and
    raises nothing; a loop over such names alone leaves the state as it
    was. *)
Theorem solver_loop_skips_other_names (env : environment) (model : string)
    (timelimit : Z) (tabs : list nat) (solvers : list string) (w : world) :
  Forall (fun s => s ∉ options) solvers ->
  solver_loop env model timelimit tabs solvers w = (Ok tt, w).
Proof.
  unfold solver_loop, enumerate. generalize 0%nat.
  induction solvers as [|s l IH]; intros k Hs; [reflexivity|].
  inversion Hs as [|? ? Hs1 Hl]; subst.
  cbn [length seq zip zip_with for_each].
  rewrite (bind_ok _ _ _ _ _ (loop_body_other _ _ _ _ _ _ _ Hs1)).
  by apply IH.
Qed.

Lemma solver_loop_skips_other_names_witness :
  solver_loop demo_env "model.mps" 10 (seq 0 3) ["Xpress"; "gurobi"]
    fresh_world = (Ok tt, fresh_world).
Proof.
  apply (solver_loop_skips_other_names demo_env "model.mps" 10 (seq 0 3)
           ["Xpress"; "gurobi"] fresh_world).
  repeat constructor; apply (bool_decide_unpack _); by vm_compute.
Defined.

Lemma enumerate_lookup {A} (l : list A) (k : nat) (a : A) :
  l !! k = Some a -> enumerate l !! k = Some (k, a).
Proof.
  intros Hk. unfold enumerate. apply lookup_zip_with_Some.
  exists k, a. split; [done|]. split; [|done].
  apply lookup_seq. split; [done|]. by eapply lookup_lt_Some.
Qed.

(** ** The status table of the Gurobi adapter *)

Lemma statuscodes_inj (a b : Z) (name : string) :
  statuscodes !! a = Some name -> statuscodes !! b = Some name -> a = b.
Proof.
  intros Ha Hb.
  assert (Hra : (1 <= a <= 17)%Z) by (apply statuscodes_domain; eauto).
  assert (Hrb : (1 <= b <= 17)%Z) by (apply statuscodes_domain; eauto).
  assert (Hca : (a = 1 \/ a = 2 \/ a = 3 \/ a = 4 \/ a = 5 \/ a = 6 \/ a = 7 \/
            a = 8 \/ a = 9 \/ a = 10 \/ a = 11 \/ a = 12 \/ a = 13 \/
            a = 14 \/ a = 15 \/ a = 16 \/ a = 17)%Z) by lia.
  assert (Hcb : (b = 1 \/ b = 2 \/ b = 3 \/ b = 4 \/ b = 5 \/ b = 6 \/ b = 7 \/
            b = 8 \/ b = 9 \/ b = 10 \/ b = 11 \/ b = 12 \/ b = 13 \/
            b = 14 \/ b = 15 \/ b = 16 \/ b = 17)%Z) by lia.
  clear Hra Hrb.
  repeat (destruct Hca as [-> | Hca]); try subst a;
    vm_compute in Ha; injection Ha as <-;
    repeat (destruct Hcb as [-> | Hcb]); try subst b;
    first [reflexivity | vm_compute in Hb; discriminate Hb].
Qed.

(** X4: the status of a record [run_gurobi] returns is the name the table
    gives the backend's status code, and it names that code alone: no other
    code has the same name, so the status string tells the code. *)
Theorem run_gurobi_status_names_the_code (env : environment) (model : string)
    (timelimit : Z) (w : world) (r : result_record) (w' : world) :
  writable w ->
  run_gurobi env model timelimit w = (Ok r, w') ->
  exists code name,
    res (gp.Status (gurobipy env model timelimit)) = Ok code /\
    status r = PStr name /\
    forall k, statuscodes !! k = Some name <-> k = code.
Proof.
  intros Hw H.
  destruct (run_gurobi_returned _ _ _ _ _ _ Hw H)
    as (v & code & name & _ & _ & Hcode & Hname & Hstatus & _).
  exists code, name. split; [done|]. split; [done|].
  intros k. split; [|by intros ->].
  intros Hk. by eapply statuscodes_inj.
Qed.

Lemma run_gurobi_status_names_the_code_witness :
  exists code name,
    res (gp.Status (gurobipy demo_env "model.mps" 10)) = Ok code /\
    forall k, statuscodes !! k = Some name <-> k = code.
Proof.
  destruct (run_gurobi demo_env "model.mps" 10 fresh_world) as [[r|e] w']
    eqn:E; [|vm_compute in E; discriminate E].
  destruct (run_gurobi_status_names_the_code demo_env "model.mps" 10
              fresh_world r w' I E) as (code & name & Hcode & _ & Hk).
  by exists code, name.
Defined.

(** ** Inside a capture region *)

Lemma string_app_empty_r (a : string) : a +:+ "" = a.
Proof.
  induction a as [|ch a IH]; [done|].
  change (String ch (a +:+ "") = String ch a). by f_equal.
Qed.

Lemma join_app (a b : list string) : join (a ++ b) = join a +:+ join b.
Proof.
  induction a as [|s a IH]; [done|].
  change (s +:+ join (a ++ b) = (s +:+ join a) +:+ join b).
  by rewrite IH, string_app_assoc.
Qed.

Lemma running_app (a b : list string) :
  forall acc,
    running acc (a ++ b) = running acc a ++ running (acc +:+ join a) b.
Proof.
  induction a as [|s a IH]; intros acc.
  - simpl. by rewrite string_app_empty_r.
  - cbn [app running]. rewrite IH. cbn [app]. do 3 f_equal.
    change (join (s :: a)) with (s +:+ join a).
    by rewrite string_app_assoc.
Qed.

Lemma sys_stdout_write_hooked id ph acc s w :
  hooked id ph acc w ->
  exists n w',
    sys_stdout_write s w = (Ok n, w') /\
    hooked id ph (acc +:+ s) w' /\
    ui_log w' = ui_log w ++ [UiPlaceholderCode ph (acc +:+ s)] /\
    console w' = console w /\
    length (heap w') = length (heap w) /\
    forall j, j ≠ id -> heap w' !! j = heap w !! j.
Proof.
  intros [Hout Hbuf].
  pose proof (lookup_lt_Some _ _ _ Hbuf) as Hlt.
  eexists _, (set_ui_log (ui_log w ++ [UiPlaceholderCode ph (acc +:+ s)])
                (set_heap (<[id := {| getvalue := acc +:+ s;
                                      write_attr := Some (CodeOf ph);
                                      closed := false |}]> (heap w)) w)).
  split.
  { unfold sys_stdout_write, stream_write. rewrite Hout, Hbuf. simpl.
    unfold new_write, bind, StringIO_write, StringIO_getvalue.
    rewrite Hbuf. simpl. rewrite list_lookup_insert_eq by done.
    reflexivity. }
  split.
  { split; [exact Hout|]. simpl. by rewrite list_lookup_insert_eq. }
  split; [reflexivity|]. split; [reflexivity|]. split.
  - simpl. by rewrite length_insert.
  - intros j Hj. simpl. by rewrite list_lookup_insert_ne.
Qed.

Lemma write_all_hooked id ph (texts : list string) :
  forall acc w,
    hooked id ph acc w ->
    exists w',
      write_all texts w = (Ok tt, w') /\
      hooked id ph (acc +:+ join texts) w' /\
      ui_log w' = ui_log w ++ map (UiPlaceholderCode ph) (running acc texts) /\
      console w' = console w /\
      length (heap w') = length (heap w) /\
      forall j, j ≠ id -> heap w' !! j = heap w !! j.
Proof.
  unfold write_all.
  induction texts as [|s texts IH]; intros acc w Hw.
  - exists w. change (join []) with "". cbn [running map for_each].
    rewrite app_nil_r, string_app_empty_r.
    split; [reflexivity|]. split; [exact Hw|]. by repeat split.
  - destruct (sys_stdout_write_hooked id ph acc s w Hw)
      as (n & w1 & Hstep & Hw1 & Hlog1 & Hcon1 & Hlen1 & Hoth1).
    destruct (IH (acc +:+ s) w1 Hw1)
      as (w' & Hrun & Hw' & Hlog & Hcon & Hlen & Hoth).
    exists w'. split.
    { simpl. unfold bind at 1 2. rewrite Hstep. simpl. exact Hrun. }
    change (join (s :: texts)) with (s +:+ join texts).
    rewrite <- string_app_assoc. split; [exact Hw'|]. split.
    { rewrite Hlog, Hlog1. simpl. by rewrite <- app_assoc. }
    split; [congruence|]. split; [congruence|].
    intros j Hj. by rewrite Hoth, Hoth1.
Qed.

Global Instance captured_preorder id ph : PreOrder (captured id ph).
Proof.
  split.
  - intros w acc Hw. exists []. change (join []) with "".
    cbn [running map]. rewrite string_app_empty_r, app_nil_r.
    split; [exact Hw|]. by split.
  - intros w1 w2 w3 H12 H23 acc Hw1.
    destruct (H12 acc Hw1) as (t1 & Hw2 & Hlog2 & Hcon2).
    destruct (H23 _ Hw2) as (t2 & Hw3 & Hlog3 & Hcon3).
    exists (t1 ++ t2). rewrite join_app, <- string_app_assoc.
    split; [exact Hw3|]. split; [|congruence].
    rewrite Hlog3, Hlog2, running_app, map_app. by rewrite <- app_assoc.
Qed.

Lemma captured_sys_stdout_write id ph s :
  respects (captured id ph) (sys_stdout_write s).
Proof.
  intros w acc Hw.
  destruct (sys_stdout_write_hooked id ph acc s w Hw)
    as (n & w1 & Hstep & Hw1 & Hlog1 & Hcon1 & _).
  rewrite Hstep. exists [s].
  change (join [s]) with (s +:+ ""). rewrite string_app_empty_r.
  split; [exact Hw1|]. by split.
Qed.

Lemma captured_set_clock id ph w t : captured id ph w (set_clock t w).
Proof.
  intros acc Hw. exists []. change (join []) with "".
  cbn [running map]. rewrite string_app_empty_r, app_nil_r.
  split; [exact Hw|]. by split.
Qed.

(** Relations kept by every write to [sys.stdout] and by the clock are
    kept by the library calls and so by the adapters. *)
Section by_writes.
Context (R : relation world) `{!PreOrder R}.
Hypothesis R_write : forall s, respects R (sys_stdout_write s).
Hypothesis R_clock : forall w t, R w (set_clock t w).
Context (env : environment) (model : string) (timelimit : Z).

Lemma write_all_keeps texts : respects R (write_all texts).
Proof.
  apply respects_for_each; [done|]. intros s.
  apply respects_bind; [done | apply R_write |].
  intros _. by apply respects_pure.
Qed.

Lemma invoke_keeps {A} (c : api_call A) : respects R (invoke c).
Proof.
  unfold invoke. apply respects_bind; [done | apply write_all_keeps |].
  intros _ w. apply R_clock.
Qed.

Ltac keeps_step :=
  first
    [ apply respects_pure
    | apply respects_raise
    | apply invoke_keeps
    | apply respects_time_time
    | apply respects_os_path_exists
    | apply respects_dict_getitem
    | apply respects_try_except
    | apply respects_bind; [| |intros ?] ];
  try apply _.

Lemma run_cbc_keeps : respects R (run_cbc env model timelimit).
Proof. unfold run_cbc. repeat keeps_step. Qed.

Lemma run_pyscipopt_keeps : respects R (run_pyscipopt env model timelimit).
Proof. unfold run_pyscipopt. repeat keeps_step. Qed.

Lemma run_gurobi_keeps : respects R (run_gurobi env model timelimit).
Proof. unfold run_gurobi. repeat keeps_step. Qed.

(** The HiGHS adapter also removes and writes [highs.log]. *)
Hypothesis R_log :
  forall w f,
    (forall p, p ≠ "highs.log" -> f !! p = files w !! p) ->
    R w (set_files f w).

Lemma os_remove_log_keeps : respects R (os_remove "highs.log").
Proof.
  intros w. unfold os_remove.
  destruct (files w !! "highs.log"); [|reflexivity].
  apply R_log. intros p Hp. by rewrite lookup_delete_ne.
Qed.

Lemma Highs_run_keeps h : respects R (Highs_run h "highs.log").
Proof.
  unfold Highs_run. apply respects_bind; [done | | intros _; apply invoke_keeps].
  intros w. apply R_log. intros p Hp. by rewrite lookup_insert_ne.
Qed.

Lemma run_highs_keeps : respects R (run_highs env model timelimit).
Proof.
  unfold run_highs.
  repeat first
    [ apply Highs_run_keeps
    | match goal with
      | |- respects _ (if ?b then _ else _) =>
          destruct b; [apply os_remove_log_keeps | apply respects_pure; apply _]
      end
    | keeps_step ].
Qed.
End by_writes.

Lemma capture_enter_hooked ph w :
  hooked (length (heap w)) ph "" (capture_enter (CodeOf ph) w).
Proof.
  split; [reflexivity|]. rewrite capture_enter_heap.
  by rewrite list_lookup_middle.
Qed.

Lemma capture_pass_page tabs i tab (run : M result_record) w :
  tabs !! (i + 1)%nat = Some tab ->
  (forall id ph, respects (captured id ph) run) ->
  respects (same files) run ->
  exists texts,
    ui_log (capture_pass tabs i run w).2
    = ui_log w ++ UiEmpty tab (length (ui_log w))
        :: map (UiPlaceholderCode (length (ui_log w))) (running "" texts) /\
    console (capture_pass tabs i run w).2 = console w /\
    files (capture_pass tabs i run w).2 = files w.
Proof.
  intros Htab Hcap Hfiles.
  destruct (capture_pass tabs i run w) as [o w'] eqn:E. cbn [snd].
  unfold capture_pass, bind at 1, subscript in E. rewrite Htab in E.
  unfold pure, bind at 1, st_empty in E. rewrite st_capture_unfold in E.
  set (ph := length (ui_log w)) in *.
  set (w1 := set_ui_log (ui_log w ++ [UiEmpty tab ph]) w) in *.
  destruct (Hcap (length (heap w1)) ph (capture_enter (CodeOf ph) w1) ""
              (capture_enter_hooked ph w1)) as (texts & _ & Hlog & Hcon).
  pose proof (Hfiles (capture_enter (CodeOf ph) w1)) as Hf.
  unfold same in Hf. exists texts. unfold bind in E.
  destruct (run (capture_enter (CodeOf ph) w1)) as [[r|e] w3];
    injection E as _ <-; simpl in *; rewrite Hlog, Hcon, Hf;
    by rewrite <- app_assoc.
Qed.

Lemma loop_body_captured_page env model timelimit tabs i s tab w :
  s ∈ ["Gurobi"; "SCIP"; "CBC"] ->
  tabs !! (i + 1)%nat = Some tab ->
  exists texts,
    ui_log (loop_body env model timelimit tabs i s w).2
    = ui_log w ++ UiEmpty tab (length (ui_log w))
        :: map (UiPlaceholderCode (length (ui_log w))) (running "" texts) /\
    console (loop_body env model timelimit tabs i s w).2 = console w /\
    files (loop_body env model timelimit tabs i s w).2 = files w.
Proof.
  intros Hs Htab.
  repeat (apply elem_of_cons in Hs as [-> | Hs]).
  - rewrite loop_body_Gurobi. apply capture_pass_page; [done | |].
    + intros id ph. apply run_gurobi_keeps;
        [apply _ | apply captured_sys_stdout_write | apply captured_set_clock].
    + apply respects_run_gurobi; apply _.
  - rewrite loop_body_SCIP. apply capture_pass_page; [done | |].
    + intros id ph. apply run_pyscipopt_keeps;
        [apply _ | apply captured_sys_stdout_write | apply captured_set_clock].
    + apply respects_run_pyscipopt; apply _.
  - rewrite loop_body_CBC. apply capture_pass_page; [done | |].
    + intros id ph. apply run_cbc_keeps;
        [apply _ | apply captured_sys_stdout_write | apply captured_set_clock].
    + apply respects_run_cbc; apply _.
  - by apply elem_of_nil in Hs.
Qed.

(** X5: the pass of the loop for Gurobi, SCIP or CBC, however its adapter
    ends, adds to the page one placeholder in the solver's tab and after it
    only texts for that placeholder, each the whole of the captured output
    so far; nothing of it reaches the console, and no file is touched. *)
Theorem captured_pass_feeds_its_placeholder (env : environment)
    (model : string) (timelimit : Z) (tabs : list nat) (i : nat) (s : string)
    (tab : nat) (w : world) :
  s ∈ ["Gurobi"; "SCIP"; "CBC"] ->
  tabs !! (i + 1)%nat = Some tab ->
  exists texts,
    ui_log (loop_body env model timelimit tabs i s w).2
    = ui_log w ++ UiEmpty tab (length (ui_log w))
        :: map (UiPlaceholderCode (length (ui_log w))) (running "" texts) /\
    console (loop_body env model timelimit tabs i s w).2 = console w /\
    files (loop_body env model timelimit tabs i s w).2 = files w.
Proof. apply loop_body_captured_page. Qed.

Lemma captured_pass_feeds_its_placeholder_witness :
  exists texts,
    ui_log (loop_body demo_env "model.mps" 10 (seq 0 5) 2 "SCIP" fresh_world).2
    = ui_log fresh_world ++ UiEmpty 3 (length (ui_log fresh_world))
        :: map (UiPlaceholderCode (length (ui_log fresh_world)))
             (running "" texts) /\
    console (loop_body demo_env "model.mps" 10 (seq 0 5) 2 "SCIP"
               fresh_world).2 = console fresh_world /\
    files (loop_body demo_env "model.mps" 10 (seq 0 5) 2 "SCIP" fresh_world).2
    = files fresh_world.
Proof.
  apply (captured_pass_feeds_its_placeholder demo_env "model.mps" 10
           (seq 0 5) 2 "SCIP" 3 fresh_world).
  - apply (bool_decide_unpack _). by vm_compute.
  - reflexivity.
Defined.

(** X3: in the loop, [tabs[i + 1]] is the tab labelled with the solver
    of the pass.  With [tabs] what [st.tabs(["Results"] + solvers)]
    returned and [s] the solver at position [k] of the selection,
    [enumerate] hands the pass the index [k], and entry [k + 1] of [tabs]
    is there and is the tab whose label is [s].  The pass for Gurobi, SCIP
    or CBC puts its placeholder in that tab, first of all it shows; the
    pass for HiGHS ends as [run_highs] ended when that raised, and when it
    ends normally the last thing it has shown is a code block in that
    tab. *)
Theorem solver_tab_is_its_own (env : environment) (model : string)
    (timelimit : Z) (solvers : list string) (k : nat) (s : string)
    (tabs : list nat) (w0 w1 w : world) :
  st_tabs ("Results" :: solvers) w0 = (Ok tabs, w1) ->
  solvers !! k = Some s ->
  exists tab,
    enumerate solvers !! k = Some (k, s) /\
    tabs !! (k + 1)%nat = Some tab /\
    ("Results" :: solvers) !! tab = Some s /\
    (s ∈ ["Gurobi"; "SCIP"; "CBC"] ->
     exists rest,
       ui_log (loop_body env model timelimit tabs k s w).2
       = ui_log w ++ UiEmpty tab (length (ui_log w)) :: rest) /\
    (s = "HiGHS" ->
     (forall e w',
         run_highs env model timelimit w = (Raise e, w') ->
         loop_body env model timelimit tabs k s w = (Raise e, w')) /\
     (forall w',
         loop_body env model timelimit tabs k s w = (Ok tt, w') ->
         exists text, last (ui_log w') = Some (UiCode tab text))).
Proof.
  intros Htabs Hk.
  assert (Htab : tabs !! (k + 1)%nat = Some (k + 1)%nat).
  { injection Htabs as <- _.
    change ((seq 0 (S (length solvers))) !! (k + 1)%nat = Some (k + 1)%nat).
    rewrite lookup_seq_lt; [reflexivity|].
    apply lookup_lt_Some in Hk. lia. }
  exists (k + 1)%nat.
  split; [by apply enumerate_lookup|]. split; [exact Htab|].
  split; [by replace (k + 1)%nat with (S k) by lia|]. split.
  - intros Hs.
    destruct (loop_body_captured_page env model timelimit _ k s (k + 1)%nat w
                Hs Htab) as (texts & Hlog & _).
    eexists. exact Hlog.
  - intros ->. rewrite loop_body_HiGHS.
    unfold highs_pass, subscript. rewrite Htab. unfold pure.
    split.
    + intros e w' E. unfold bind at 1. by rewrite (bind_raise _ _ _ _ _ E).
    + intros w'. unfold bind at 1.
      destruct (run_highs env model timelimit w) as [[r|e] w2] eqn:E.
      * rewrite (bind_ok _ _ _ _ _ E).
        unfold bind, results_list_append, read_file, st_code, ui_emit.
        cbn [files set_results_list].
        destruct (files w2 !! "highs.log") as [text|]; [|discriminate].
        intros H. injection H as <-. exists text.
        cbn [ui_log set_ui_log]. by rewrite last_snoc.
      * rewrite (bind_raise _ _ _ _ _ E). discriminate.
Qed.

Lemma solver_tab_is_its_own_witness :
  exists rest,
    ui_log (loop_body demo_env "model.mps" 10 (seq 0 5) 2 "SCIP"
              fresh_world).2
    = ui_log fresh_world ++ UiEmpty 3 (length (ui_log fresh_world)) :: rest.
Proof.
  destruct (solver_tab_is_its_own demo_env "model.mps" 10 options 2 "SCIP"
              (seq 0 5) fresh_world
              (set_ui_log [UiTabs ("Results" :: options)] fresh_world)
              fresh_world eq_refl eq_refl)
    as (tab & _ & Htab & _ & Hpage & _).
  injection Htab as <-. apply Hpage.
  apply (bool_decide_unpack _). by vm_compute.
Defined.

Lemma sink_calls_map_ne ph ph' texts :
  ph' ≠ ph -> sink_calls ph (map (UiPlaceholderCode ph') texts) = [].
Proof.
  intros Hne. induction texts as [|t texts IH]; [done|].
  unfold sink_calls in *. simpl. rewrite decide_False by done. exact IH.
Qed.

(** X6: what a region printed before its body raised has reached the
    sink: a region that makes the writes [writes] and then raises ends in
    that error, with [sys.stdout] back on its old target and the sink
    called once per write as in a region that ends normally. *)
Theorem st_capture_shows_output_before_error (ph : nat) (writes : list string)
    (e : exn) (w : world) :
  exists w',
    st_capture (CodeOf ph) (write_all writes ;; @raise unit e) w
    = (Raise e, w') /\
    sink_calls ph (ui_log w')
    = sink_calls ph (ui_log w) ++ running "" writes /\
    sys_stdout w' = sys_stdout w.
Proof.
  destruct (write_all_hooked (length (heap w)) ph writes ""
              (capture_enter (CodeOf ph) w) (capture_enter_hooked ph w))
    as (w2 & Hrun & _ & Hlog & _).
  exists (capture_leave (sys_stdout w) (length (heap w)) w2).
  rewrite st_capture_unfold, (bind_ok _ _ _ _ _ Hrun).
  split; [reflexivity|]. split; [|reflexivity].
  change (ui_log (capture_leave (sys_stdout w) (length (heap w)) w2))
    with (ui_log w2).
  rewrite Hlog.
  change (ui_log (capture_enter (CodeOf ph) w)) with (ui_log w).
  by rewrite sink_calls_app, sink_calls_map.
Qed.

(** X7: regions nest.  With a region for [ph2] inside a region for [ph1],
    the inner sink is sent the inner writes alone, starting from an empty
    buffer; the outer sink is sent the outer writes made before and after
    the inner region as one running text, the writes after it going to the
    outer buffer again; and [sys.stdout] is back on its first target at
    the end. *)
Theorem st_capture_nests (ph1 ph2 : nat) (a b c : list string) (w : world) :
  ph1 ≠ ph2 ->
  exists w',
    st_capture (CodeOf ph1)
      (write_all a ;; st_capture (CodeOf ph2) (write_all b) ;; write_all c) w
    = (Ok tt, w') /\
    sink_calls ph1 (ui_log w')
    = sink_calls ph1 (ui_log w) ++ running "" (a ++ c) /\
    sink_calls ph2 (ui_log w')
    = sink_calls ph2 (ui_log w) ++ running "" b /\
    sys_stdout w' = sys_stdout w.
Proof.
  intros Hne. set (n := length (heap w)).
  destruct (write_all_hooked n ph1 a "" (capture_enter (CodeOf ph1) w)
              (capture_enter_hooked ph1 w))
    as (w2 & Ha & [Hout2 Hbuf2] & Hlog2 & _ & Hlen2 & _).
  assert (Hn2 : length (heap w2) = S n).
  { rewrite Hlen2, capture_enter_heap, length_app. simpl. lia. }
  destruct (write_all_hooked (length (heap w2)) ph2 b ""
              (capture_enter (CodeOf ph2) w2) (capture_enter_hooked ph2 w2))
    as (w3 & Hb & _ & Hlog3 & _ & Hlen3 & Hoth3).
  set (w4 := capture_leave (sys_stdout w2) (length (heap w2)) w3).
  assert (Hw4 : hooked n ph1 ("" +:+ join a) w4).
  { split; [exact Hout2|]. unfold w4, capture_leave. simpl.
    rewrite list_lookup_alter_ne by lia. rewrite Hoth3 by lia.
    rewrite capture_enter_heap, lookup_app_l by lia. exact Hbuf2. }
  destruct (write_all_hooked n ph1 c _ w4 Hw4)
    as (w5 & Hc & _ & Hlog5 & _).
  exists (capture_leave (sys_stdout w) n w5).
  rewrite st_capture_unfold. fold n.
  rewrite (bind_ok _ _ _ _ _ Ha).
  assert (Hinner : st_capture (CodeOf ph2) (write_all b) w2 = (Ok tt, w4)).
  { rewrite st_capture_unfold, Hb. reflexivity. }
  rewrite (bind_ok _ _ _ _ _ Hinner), Hc.
  split; [reflexivity|].
  assert (Hlog : ui_log w5
                 = ui_log w ++ map (UiPlaceholderCode ph1) (running "" a)
                   ++ map (UiPlaceholderCode ph2) (running "" b)
                   ++ map (UiPlaceholderCode ph1) (running ("" +:+ join a) c)).
  { rewrite Hlog5.
    change (ui_log w4) with (ui_log w3). rewrite Hlog3.
    change (ui_log (capture_enter (CodeOf ph2) w2)) with (ui_log w2).
    rewrite Hlog2.
    change (ui_log (capture_enter (CodeOf ph1) w)) with (ui_log w).
    by rewrite <- !app_assoc. }
  change (ui_log (capture_leave (sys_stdout w) n w5)) with (ui_log w5).
  rewrite Hlog, !sink_calls_app, !sink_calls_map.
  rewrite !sink_calls_map_ne by done.
  rewrite running_app. simpl. rewrite app_nil_r.
  split; [done|]. split; [done|]. reflexivity.
Qed.

Lemma st_capture_nests_witness :
  exists w',
    st_capture (CodeOf 0)
      (write_all ["a;"] ;; st_capture (CodeOf 1) (write_all ["b;"]) ;;
       write_all ["c;"]) fresh_world
    = (Ok tt, w') /\
    sink_calls 0 (ui_log w') = ["a;"; "a;c;"] /\
    sink_calls 1 (ui_log w') = ["b;"] /\
    sys_stdout w' = Console.
Proof.
  apply (st_capture_nests 0 1 ["a;"] ["b;"] ["c;"] fresh_world). lia.
Defined.

(** ** The HiGHS pass and the working directory *)

Global Instance only_log_preorder : PreOrder only_log.
Proof.
  split; [by intros w p Hp|].
  intros w1 w2 w3 H12 H23 p Hp. by rewrite H23, H12.
Qed.

Global Instance only_log_blind : OutputBlind only_log.
Proof. split; by intros. Qed.

Global Instance on_console_preorder : PreOrder on_console.
Proof.
  split; [by intros w Hw|].
  intros w1 w2 w3 H12 H23 Hw. destruct (H12 Hw) as [Ho2 Hl2].
  destruct (H23 Ho2) as [Ho3 Hl3]. split; [done | congruence].
Qed.

Lemma on_console_sys_stdout_write s : respects on_console (sys_stdout_write s).
Proof. intros w Hw. unfold sys_stdout_write. rewrite Hw. by split. Qed.

(** X8: the HiGHS pass, run with [sys.stdout] on the console and a HiGHS
    whose calls return, ends normally having added one record to
    [results_list] and exactly one element to the page: a code block in the
    solver's tab that holds the log of this run, whatever [highs.log] held
    before. *)
Theorem highs_pass_shows_this_run_log (env : environment) (model : string)
    (timelimit : Z) (tabs : list nat) (i tab : nat) (w : world) :
  let h := highs env model timelimit in
  sys_stdout w = Console ->
  tabs !! (i + 1)%nat = Some tab ->
  highs_setup_returns h ->
  highs_run_returns h ->
  exists r w',
    loop_body env model timelimit tabs i "HiGHS" w = (Ok tt, w') /\
    ui_log w' = ui_log w ++ [UiCode tab (highspy.run_log h)] /\
    results_list w' = results_list w ++ [r].
Proof.
  intros h Hcon Htab Hsetup Hrun. subst h.
  assert (Hw : writable w) by (unfold writable; by rewrite Hcon).
  destruct (run_highs_returns env model timelimit w Hw Hsetup Hrun)
    as (r & w1 & E & Hread).
  pose proof (respects_run_highs (same results_list) env model timelimit
                (fun _ _ => eq_refl) w) as Hres.
  pose proof (run_highs_keeps on_console on_console_sys_stdout_write
                (fun w t H => conj H eq_refl) env model timelimit
                (fun w f _ H => conj H eq_refl) w Hcon) as [_ Hlog].
  rewrite E in Hres, Hlog. unfold same in Hres. simpl in Hres, Hlog.
  exists r. eexists. rewrite loop_body_HiGHS.
  unfold highs_pass, bind at 1, subscript. rewrite Htab.
  unfold pure. rewrite (bind_ok _ _ _ _ _ E).
  unfold bind, results_list_append, st_code, ui_emit.
  unfold read_file in *. cbn [files set_results_list].
  destruct (files w1 !! "highs.log") as [text|]; [|discriminate Hread].
  injection Hread as ->.
  split; [reflexivity|]. simpl. by rewrite Hlog, Hres.
Qed.

Lemma highs_pass_shows_this_run_log_witness :
  exists r w',
    loop_body demo_env "model.mps" 10 (seq 0 5) 1 "HiGHS" stale_world
    = (Ok tt, w') /\
    ui_log w' = ui_log stale_world ++ [UiCode 2 "Running HiGHS; Optimal"] /\
    results_list w' = results_list stale_world ++ [r].
Proof.
  apply (highs_pass_shows_this_run_log demo_env "model.mps" 10 (seq 0 5) 1 2
           stale_world).
  - reflexivity.
  - reflexivity.
  - repeat split; eexists; reflexivity.
  - repeat split; eexists; reflexivity.
Defined.

(** Relations kept by the adapters and blind to the buffers, to
    [sys.stdout] and to [results_list] are kept by the passes of the loop. *)
Section loop_keeps.
Context (R : relation world) `{!PreOrder R} `{!OutputBlind R}.
Hypothesis R_heap : forall w h, R w (set_heap h w).
Hypothesis R_stdout : forall w s, R w (set_sys_stdout s w).
Hypothesis R_results : forall w r, R w (set_results_list r w).
Context (env : environment) (model : string) (timelimit : Z).

Lemma st_capture_keeps {A} f (body : M A) :
  respects R body -> respects R (st_capture f body).
Proof.
  intros Hbody w. rewrite st_capture_unfold. cbn [snd].
  etrans; [|etrans; [apply (Hbody (capture_enter f w))|]].
  - unfold capture_enter. etrans; [apply R_heap|].
    etrans; [apply R_stdout | apply R_heap].
  - unfold capture_leave. etrans; [apply R_stdout | apply R_heap].
Qed.

Lemma capture_pass_keeps tabs i (run : M result_record) :
  respects R run -> respects R (capture_pass tabs i run).
Proof.
  intros Hrun. unfold capture_pass.
  apply respects_bind; [done | by apply respects_subscript | intros tab].
  apply respects_bind; [done | by apply respects_st_empty | intros ph].
  apply st_capture_keeps.
  apply respects_bind; [done | done | intros r w]. apply R_results.
Qed.

Lemma highs_pass_keeps tabs i :
  respects R (run_highs env model timelimit) ->
  respects R (highs_pass env model timelimit tabs i).
Proof.
  intros Hrun. unfold highs_pass.
  apply respects_bind; [done | by apply respects_subscript | intros tab].
  apply respects_bind; [done | done | intros r].
  apply respects_bind; [done | intros w; apply R_results | intros _].
  apply respects_bind; [done | by apply respects_read_file | intros text].
  by apply respects_st_code.
Qed.

Lemma loop_body_keeps tabs i s :
  (s = "HiGHS" -> respects R (run_highs env model timelimit)) ->
  respects R (loop_body env model timelimit tabs i s).
Proof.
  intros Hhighs w.
  destruct (decide (s ∈ options)) as [Hs|Hs].
  - unfold options in Hs.
    repeat (apply elem_of_cons in Hs as [-> | Hs]).
    + rewrite loop_body_Gurobi.
      by apply capture_pass_keeps, respects_run_gurobi.
    + rewrite loop_body_HiGHS. by apply highs_pass_keeps, Hhighs.
    + rewrite loop_body_SCIP.
      by apply capture_pass_keeps, respects_run_pyscipopt.
    + rewrite loop_body_CBC. by apply capture_pass_keeps, respects_run_cbc.
    + by apply elem_of_nil in Hs.
  - rewrite loop_body_other by done. reflexivity.
Qed.

Lemma solver_loop_keeps tabs solvers :
  ("HiGHS" ∈ solvers -> respects R (run_highs env model timelimit)) ->
  respects R (solver_loop env model timelimit tabs solvers).
Proof.
  unfold solver_loop, enumerate. generalize 0%nat.
  induction solvers as [|s l IH]; intros k Hhighs.
  - by apply respects_pure.
  - cbn [length seq zip zip_with for_each].
    apply respects_bind; [done | | intros _].
    + apply loop_body_keeps. intros ->. apply Hhighs, list_elem_of_here.
    + apply IH. intros Hin. by apply Hhighs, list_elem_of_further.
Qed.
End loop_keeps.

Lemma submitted_run_files env model timelimit solvers w :
  files (submitted_run env model timelimit solvers w).2
  = files (solver_loop env model timelimit (seq 0 (S (length solvers)))
             solvers (loop_entry solvers w)).2.
Proof.
  rewrite submitted_run_unfold.
  destruct (solver_loop _ _ _ _ _ _) as [[[]|e] w1]; [|reflexivity].
  by destruct (results_list w1).
Qed.

(** X9: a run changes no file of the working directory other than
    [highs.log], however it ends; and when HiGHS is not among the selected
    solvers it changes no file at all, so that a [highs.log] left by an
    earlier run stays as it is. *)
Theorem run_changes_no_file_but_highs_log (env : environment) (model : string)
    (timelimit : Z) (solvers : list string) (w : world) :
  (forall p, p ≠ "highs.log" ->
             files (submitted_run env model timelimit solvers w).2 !! p
             = files w !! p) /\
  ("HiGHS" ∉ solvers ->
   files (submitted_run env model timelimit solvers w).2 = files w).
Proof.
  rewrite submitted_run_files. split.
  - assert (Hhighs : respects only_log (run_highs env model timelimit)).
    { apply run_highs_keeps; [apply _ | | by intros | by intros].
      apply (respects_sys_stdout_write only_log). }
    exact (solver_loop_keeps only_log (fun _ _ _ _ => eq_refl)
             (fun _ _ _ _ => eq_refl) (fun _ _ _ _ => eq_refl)
             env model timelimit _ solvers (fun _ => Hhighs)
             (loop_entry solvers w)).
  - intros Hno.
    exact (solver_loop_keeps (same files) (fun _ _ => eq_refl)
             (fun _ _ => eq_refl) (fun _ _ => eq_refl)
             env model timelimit _ solvers (fun Hin => False_ind _ (Hno Hin))
             (loop_entry solvers w)).
Qed.

(** ** A model that cannot be read *)

(** X10: when the library's read of the model raises, the adapter ends
    in that error at once, in the state the read left: no later call is
    made (no time limit set, no solve), and no file is touched; in
    [run_highs] the read comes before the removal of [highs.log], so a log
    left by an earlier run is still there. *)
Theorem model_read_error_ends_adapter :
  (forall env model timelimit w e,
      let m := gurobipy env model timelimit in
      writable w ->
      res (gp.read m) = Raise e ->
      run_gurobi env model timelimit w = (Raise e, after (gp.read m) w) /\
      files (after (gp.read m) w) = files w) /\
  (forall env model timelimit w e,
      let m := cbc env model timelimit in
      writable w ->
      completes (mip.Model m) ->
      res (mip.read m) = Raise e ->
      run_cbc env model timelimit w
      = (Raise e, after (mip.read m) (after (mip.Model m) w)) /\
      files (after (mip.read m) (after (mip.Model m) w)) = files w) /\
  (forall env model timelimit w e,
      let m := scip env model timelimit in
      writable w ->
      completes (pyscipopt.Model m) ->
      completes (pyscipopt.redirectOutput m) ->
      completes (pyscipopt.printVersion m) ->
      res (pyscipopt.readProblem m) = Raise e ->
      exists w',
        run_pyscipopt env model timelimit w = (Raise e, w') /\
        w' = after (pyscipopt.readProblem m)
               (after (pyscipopt.printVersion m)
                  (after (pyscipopt.redirectOutput m)
                     (after (pyscipopt.Model m) w))) /\
        files w' = files w) /\
  (forall env model timelimit w e,
      let h := highs env model timelimit in
      writable w ->
      completes (highspy.Highs h) ->
      res (highspy.readModel h) = Raise e ->
      run_highs env model timelimit w
      = (Raise e, after (highspy.readModel h) (after (highspy.Highs h) w)) /\
      files (after (highspy.readModel h) (after (highspy.Highs h) w))
      = files w).
Proof.
  repeat split.
  - unfold run_gurobi. cbv zeta. by step.
  - apply after_files.
  - open_calls. unfold run_cbc. cbv zeta. by do 2 step.
  - by rewrite !after_files.
  - intros env model timelimit w e m Hw H1 H2 H3 Hread. subst m. open_calls.
    eexists. split; [|split; [reflexivity|]].
    + unfold run_pyscipopt. cbv zeta. by do 4 step.
    + by rewrite !after_files.
  - open_calls. unfold run_highs. cbv zeta. by do 2 step.
  - by rewrite !after_files.
Qed.

Lemma model_read_error_ends_adapter_witness :
  (run_gurobi (with_gurobi gurobi_read_fails demo_env) "model.mps" 10
     fresh_world).1 = Raise (LibraryError "GurobiError" "Unable to read model")
  /\
  (run_cbc demo_env_cbc_read_fails "model.mps" 10 fresh_world).1
  = Raise (LibraryError "OSError" "cannot read model") /\
  (exists w',
      run_pyscipopt (with_scip scip_read_fails demo_env) "model.mps" 10
        fresh_world
      = (Raise (LibraryError "OSError" "SCIP: error in input data"), w') /\
      files w' = files fresh_world) /\
  files (run_highs (with_highs highs_read_fails demo_env) "model.mps" 10
           stale_world).2 !! "highs.log" = Some "log of an earlier run".
Proof.
  destruct model_read_error_ends_adapter as (Hg & Hc & Hs & Hh).
  split; [|split; [|split]].
  - destruct (Hg (with_gurobi gurobi_read_fails demo_env) "model.mps" 10%Z
                fresh_world (LibraryError "GurobiError" "Unable to read model")
                I eq_refl) as [-> _].
    reflexivity.
  - destruct (Hc demo_env_cbc_read_fails "model.mps" 10%Z fresh_world
                (LibraryError "OSError" "cannot read model") I
                (ex_intro _ tt eq_refl) eq_refl) as [-> _].
    reflexivity.
  - destruct (Hs (with_scip scip_read_fails demo_env) "model.mps" 10%Z
                fresh_world
                (LibraryError "OSError" "SCIP: error in input data") I
                (ex_intro _ tt eq_refl) (ex_intro _ tt eq_refl)
                (ex_intro _ tt eq_refl) eq_refl) as (w' & Hrun & _ & Hfiles).
    by exists w'.
  - destruct (Hh (with_highs highs_read_fails demo_env) "model.mps" 10%Z
                stale_world (LibraryError "RuntimeError" "cannot read model")
                I (ex_intro _ tt eq_refl) eq_refl) as [Hrun Hfiles].
    rewrite Hrun. cbn [snd]. rewrite Hfiles. reflexivity.
Defined.

(** ** A run to its end *)

(** X11: when at least one solver is selected and the adapters of the
    selected solvers return, the run ends normally, whatever
    [results_list] held before it: the list then holds exactly one record
    per selected solver, in the order of the selection, and the last two
    things shown, both in the first tab, are the table of these records
    and the chart built from them. *)
Theorem run_shows_one_row_per_solver (env : environment) (model : string)
    (timelimit : Z) (solvers : list string) (w : world) :
  solvers ≠ [] ->
  solvers ⊆ options ->
  writable w ->
  adapters_return env model timelimit solvers ->
  exists w' rows log,
    submitted_run env model timelimit solvers w = (Ok tt, w') /\
    results_list w' = rows /\
    Forall2 (produced_by env model timelimit) solvers rows /\
    ui_log w' = log ++ [UiDataframe 0 rows; UiAltairChart 0 (chart_of rows)] /\
    ("Results" :: solvers) !! 0%nat = Some "Results".
Proof.
  intros Hne Hopt Hw Hret.
  destruct (solver_loop_from_returns env model timelimit
              (seq 0 (S (length solvers))) solvers 0 (loop_entry solvers w))
    as [w1 Hrun]; [by apply Forall_forall | done | done | |].
  { rewrite length_seq. lia. }
  destruct (solver_loop_ok_records _ _ _ _ _ _ _ Hopt
              (Hw : writable (loop_entry solvers w)) Hrun)
    as (rs & Hrs & Hlen & Hall).
  simpl in Hrs. subst rs.
  change (solver_loop env model timelimit (seq 0 (S (length solvers)))
            solvers (loop_entry solvers w) = (Ok tt, w1)) in Hrun.
  rewrite submitted_run_unfold, Hrun.
  destruct (results_list w1) as [|r0 rows] eqn:Erows.
  { destruct solvers; [done | discriminate Hlen]. }
  eexists _, (r0 :: rows), (ui_log w1). split; [reflexivity|].
  split; [exact Erows|]. by split.
Qed.

Lemma run_shows_one_row_per_solver_witness :
  exists w' rows log,
    submitted_run demo_env "model.mps" 10 ["SCIP"; "Gurobi"] stale_world
    = (Ok tt, w') /\
    results_list w' = rows /\
    Forall2 (produced_by demo_env "model.mps" 10) ["SCIP"; "Gurobi"] rows /\
    ui_log w' = log ++ [UiDataframe 0 rows; UiAltairChart 0 (chart_of rows)] /\
    ("Results" :: ["SCIP"; "Gurobi"]) !! 0%nat = Some "Results".
Proof.
  apply (run_shows_one_row_per_solver demo_env "model.mps" 10
           ["SCIP"; "Gurobi"] stale_world).
  - discriminate.
  - apply (bool_decide_unpack _). by vm_compute.
  - exact I.
  - apply demo_adapters_return.
Defined.

(** ** The loop, however it ends *)

(** X12: however the loop over a selection ends, normally or in an
    error, the records it has added to [results_list] are those of the
    first solvers of the selection, one each and in their order: never more
    records than solvers, never a record out of place. *)
Theorem results_list_follows_selection (env : environment) (model : string)
    (timelimit : Z) (tabs : list nat) (solvers : list string) (w : world) :
  solvers ⊆ options ->
  writable w ->
  exists rs,
    results_list (solver_loop env model timelimit tabs solvers w).2
    = results_list w ++ rs /\
    length rs <= length solvers /\
    Forall2 (produced_by env model timelimit) (take (length rs) solvers) rs.
Proof.
  intros Hopt Hw.
  destruct (solver_loop env model timelimit tabs solvers w) as [o w'] eqn:E.
  destruct (solver_loop_records _ _ _ _ _ _ _ _ Hopt Hw E)
    as (rs & Hrs & Hall & _).
  exists rs. split; [exact Hrs|]. split; [|exact Hall].
  apply Forall2_length in Hall. rewrite length_take in Hall. lia.
Qed.

Lemma results_list_follows_selection_witness :
  exists rs,
    results_list
      (solver_loop demo_env_cbc_read_fails "model.mps" 10 (seq 0 4)
         ["HiGHS"; "CBC"; "Gurobi"] fresh_world).2
    = results_list fresh_world ++ rs /\
    length rs <= 3 /\
    Forall2 (produced_by demo_env_cbc_read_fails "model.mps" 10)
      (take (length rs) ["HiGHS"; "CBC"; "Gurobi"]) rs.
Proof.
  apply (results_list_follows_selection demo_env_cbc_read_fails "model.mps" 10
           (seq 0 4) ["HiGHS"; "CBC"; "Gurobi"] fresh_world).
  - apply (bool_decide_unpack _). by vm_compute.
  - exact I.
Defined.

(** ** What a panel shows in the end *)

Lemma after_hooked {A} id ph acc (c : api_call A) w :
  hooked id ph acc w ->
  hooked id ph (acc +:+ join (out c)) (after c w) /\
  ui_log (after c w)
  = ui_log w ++ map (UiPlaceholderCode ph) (running acc (out c)).
Proof.
  intros Hw.
  destruct (write_all_hooked id ph (out c) acc w Hw)
    as (w1 & Hrun & Hw1 & Hlog & _).
  unfold after, invoke, bind. rewrite Hrun. simpl. by split.
Qed.

Lemma shown_first {A} id ph acc (c : api_call A) texts w w' :
  hooked id ph acc w ->
  (hooked id ph (acc +:+ join (out c)) (after c w) ->
   shown id ph (acc +:+ join (out c)) texts (after c w) w') ->
  shown id ph acc (out c ++ texts) w w'.
Proof.
  intros Hw Hrest. destruct (after_hooked id ph acc c w Hw) as [Hw1 Hlog1].
  destruct (Hrest Hw1) as [Hw' Hlog]. split.
  - by rewrite join_app, <- string_app_assoc.
  - rewrite Hlog, Hlog1, running_app, map_app. by rewrite <- app_assoc.
Qed.

Lemma hooked_writable id ph acc w : hooked id ph acc w -> writable w.
Proof. intros [Hout Hbuf]. unfold writable. rewrite Hout. by eexists. Qed.

Lemma shown_last {A} id ph acc (c : api_call A) w :
  hooked id ph acc w -> shown id ph acc (out c) w (after c w).
Proof. apply after_hooked. Qed.

Ltac shown_steps :=
  repeat (apply shown_first; [assumption | intros ?]);
  apply shown_last; assumption.

Lemma run_gurobi_shown env model timelimit id ph w code :
  hooked id ph "" w ->
  gurobi_calls_return (gurobipy env model timelimit) ->
  res (gp.Status (gurobipy env model timelimit)) = Ok code ->
  is_Some (statuscodes !! code) ->
  exists r w',
    run_gurobi env model timelimit w = (Ok r, w') /\
    shown id ph "" (gurobi_output (gurobipy env model timelimit)) w w'.
Proof.
  intros Hh Hcalls Hcode [name Hname].
  pose proof (hooked_writable _ _ _ _ Hh) as Hw.
  open_calls. unfold run_gurobi. cbv zeta. do 10 step.
  unfold bind, dict_getitem. rewrite Hname. unfold pure.
  do 2 eexists. split; [reflexivity|].
  unfold gurobi_output. shown_steps.
Qed.

Lemma run_pyscipopt_shown env model timelimit id ph w :
  hooked id ph "" w ->
  scip_solve_returns (scip env model timelimit) ->
  scip_queries_return (scip env model timelimit) ->
  completes (pyscipopt.getGap (scip env model timelimit)) ->
  completes (pyscipopt.getStatus (scip env model timelimit)) ->
  exists r w',
    run_pyscipopt env model timelimit w = (Ok r, w') /\
    shown id ph "" (scip_output (scip env model timelimit)) w w'.
Proof.
  intros Hh Hsolve Hqueries Hgap Hstatus.
  pose proof (hooked_writable _ _ _ _ Hh) as Hw.
  open_calls. unfold run_pyscipopt. cbv zeta. do 13 step.
  unfold pure. do 2 eexists. split; [reflexivity|].
  unfold scip_output. shown_steps.
Qed.

Lemma run_cbc_shown env model timelimit id ph w :
  hooked id ph "" w ->
  cbc_solve_returns (cbc env model timelimit) ->
  completes (mip.gap (cbc env model timelimit)) ->
  completes (mip.objective_value (cbc env model timelimit)) ->
  exists r w',
    run_cbc env model timelimit w = (Ok r, w') /\
    shown id ph "" (cbc_output (cbc env model timelimit)) w w'.
Proof.
  intros Hh Hsolve Hgap Hobj.
  pose proof (hooked_writable _ _ _ _ Hh) as Hw.
  open_calls. unfold run_cbc. cbv zeta. do 2 step.
  unfold bind at 1, time_time at 1. step.
  unfold bind at 1, time_time at 1. do 2 step.
  unfold pure. do 2 eexists. split; [reflexivity|].
  unfold cbc_output. shown_steps.
Qed.

Lemma capture_pass_shows tabs i tab (run : M result_record) texts w :
  tabs !! (i + 1)%nat = Some tab ->
  (forall id ph w0,
      hooked id ph "" w0 ->
      exists r w1, run w0 = (Ok r, w1) /\ shown id ph "" texts w0 w1) ->
  exists w',
    capture_pass tabs i run w = (Ok tt, w') /\
    ui_log w'
    = ui_log w ++ UiEmpty tab (length (ui_log w))
        :: map (UiPlaceholderCode (length (ui_log w))) (running "" texts).
Proof.
  intros Htab Hrun.
  unfold capture_pass, bind at 1, subscript. rewrite Htab.
  unfold pure, bind at 1, st_empty. rewrite st_capture_unfold.
  set (ph := length (ui_log w)).
  set (w1 := set_ui_log (ui_log w ++ [UiEmpty tab ph]) w).
  destruct (Hrun (length (heap w1)) ph (capture_enter (CodeOf ph) w1)
              (capture_enter_hooked ph w1)) as (r & w3 & E & _ & Hlog).
  unfold bind. rewrite E. eexists. split; [reflexivity|].
  simpl. rewrite Hlog. simpl. by rewrite <- app_assoc.
Qed.

(** X13: when the calls of its adapter return, the pass for Gurobi, SCIP
    or CBC ends normally and has sent the solver's placeholder the whole
    output of the adapter's library calls, in the order of the calls, as
    one running text; the output of the guarded metric reads is part of it
    whether they raised or not. *)
Theorem captured_panel_shows_all_output (env : environment) (model : string)
    (timelimit : Z) (tabs : list nat) (i tab : nat) (w : world) :
  tabs !! (i + 1)%nat = Some tab ->
  let panel (texts : list string) (w' : world) :=
    ui_log w'
    = ui_log w ++ UiEmpty tab (length (ui_log w))
        :: map (UiPlaceholderCode (length (ui_log w))) (running "" texts) in
  (forall code,
      gurobi_calls_return (gurobipy env model timelimit) ->
      res (gp.Status (gurobipy env model timelimit)) = Ok code ->
      is_Some (statuscodes !! code) ->
      exists w',
        loop_body env model timelimit tabs i "Gurobi" w = (Ok tt, w') /\
        panel (gurobi_output (gurobipy env model timelimit)) w') /\
  (scip_solve_returns (scip env model timelimit) ->
   scip_queries_return (scip env model timelimit) ->
   completes (pyscipopt.getGap (scip env model timelimit)) ->
   completes (pyscipopt.getStatus (scip env model timelimit)) ->
   exists w',
     loop_body env model timelimit tabs i "SCIP" w = (Ok tt, w') /\
     panel (scip_output (scip env model timelimit)) w') /\
  (cbc_solve_returns (cbc env model timelimit) ->
   completes (mip.gap (cbc env model timelimit)) ->
   completes (mip.objective_value (cbc env model timelimit)) ->
   exists w',
     loop_body env model timelimit tabs i "CBC" w = (Ok tt, w') /\
     panel (cbc_output (cbc env model timelimit)) w').
Proof.
  intros Htab panel. subst panel. cbv beta. split; [|split].
  - intros code Hcalls Hcode Hname. rewrite loop_body_Gurobi.
    apply capture_pass_shows; [done|]. intros id ph w0 Hh.
    by eapply run_gurobi_shown.
  - intros Hsolve Hqueries Hgap Hstatus. rewrite loop_body_SCIP.
    apply capture_pass_shows; [done|]. intros id ph w0 Hh.
    by apply run_pyscipopt_shown.
  - intros Hsolve Hgap Hobj. rewrite loop_body_CBC.
    apply capture_pass_shows; [done|]. intros id ph w0 Hh.
    by apply run_cbc_shown.
Qed.

Lemma captured_panel_shows_all_output_witness :
  (exists w',
      loop_body demo_env "model.mps" 10 (seq 0 5) 0 "Gurobi" fresh_world
      = (Ok tt, w') /\
      ui_log w'
      = ui_log fresh_world ++ UiEmpty 1 (length (ui_log fresh_world))
          :: map (UiPlaceholderCode (length (ui_log fresh_world)))
               (running "" (gurobi_output demo_gurobi))) /\
  (exists w',
      loop_body demo_env "model.mps" 10 (seq 0 5) 0 "SCIP" fresh_world
      = (Ok tt, w') /\
      ui_log w'
      = ui_log fresh_world ++ UiEmpty 1 (length (ui_log fresh_world))
          :: map (UiPlaceholderCode (length (ui_log fresh_world)))
               (running "" (scip_output demo_scip))) /\
  (exists w',
      loop_body demo_env "model.mps" 10 (seq 0 5) 0 "CBC" fresh_world
      = (Ok tt, w') /\
      ui_log w'
      = ui_log fresh_world ++ UiEmpty 1 (length (ui_log fresh_world))
          :: map (UiPlaceholderCode (length (ui_log fresh_world)))
               (running "" (cbc_output demo_cbc))).
Proof.
  destruct (captured_panel_shows_all_output demo_env "model.mps" 10 (seq 0 5)
              0 1 fresh_world eq_refl) as (Hg & Hs & Hc).
  split; [|split].
  - apply (Hg 2%Z).
    + repeat split; eexists; reflexivity.
    + reflexivity.
    + by exists "OPTIMAL".
  - apply Hs; repeat split; eexists; reflexivity.
  - apply Hc; repeat split; eexists; reflexivity.
Defined.

(** ** Metric reads outside the [try] blocks *)

(** X14: the [try] blocks of [run_pyscipopt] and [run_gurobi] are the
    only place where an error of a metric read is caught.  Were
    [m.getGap()] to raise in [run_pyscipopt], or [m.gap] or
    [m.objective_value] in [run_cbc], the adapter would end in that error
    in the state the read left, with no later call made. *)
Theorem unguarded_read_error_leaves_adapter :
  (forall env model timelimit w e,
      let m := scip env model timelimit in
      writable w ->
      scip_solve_returns m ->
      scip_queries_return m ->
      res (pyscipopt.getGap m) = Raise e ->
      run_pyscipopt env model timelimit w
      = (Raise e,
         after (pyscipopt.getGap m)
           (after (pyscipopt.getNNodes m)
              (after (pyscipopt.getNLPIterations m)
                 (after (pyscipopt.getTotalTime m)
                    (after (pyscipopt.version m)
                       (after (pyscipopt.getObjVal m)
                          (after (pyscipopt.optimize m)
                             (after (pyscipopt.setParam_limits_time m)
                                (after (pyscipopt.readProblem m)
                                   (after (pyscipopt.printVersion m)
                                      (after (pyscipopt.redirectOutput m)
                                         (after (pyscipopt.Model m)
                                            w))))))))))))) /\
  (forall env model timelimit w e,
      let m := cbc env model timelimit in
      writable w ->
      cbc_solve_returns m ->
      res (mip.gap m) = Raise e ->
      run_cbc env model timelimit w
      = (Raise e,
         after (mip.gap m)
           (after (mip.optimize m) (after (mip.read m) (after (mip.Model m) w))))) /\
  (forall env model timelimit w e,
      let m := cbc env model timelimit in
      writable w ->
      cbc_solve_returns m ->
      completes (mip.gap m) ->
      res (mip.objective_value m) = Raise e ->
      run_cbc env model timelimit w
      = (Raise e,
         after (mip.objective_value m)
           (after (mip.gap m)
              (after (mip.optimize m)
                 (after (mip.read m) (after (mip.Model m) w)))))).
Proof.
  repeat split.
  - intros env model timelimit w e m Hw Hsolve Hqueries Hgap.
    subst m. open_calls. unfold run_pyscipopt. cbv zeta. do 12 step.
    reflexivity.
  - intros env model timelimit w e m Hw Hsolve Hgap.
    subst m. open_calls. unfold run_cbc. cbv zeta. do 2 step.
    unfold bind at 1, time_time at 1. step.
    unfold bind at 1, time_time at 1. step. reflexivity.
  - intros env model timelimit w e m Hw Hsolve Hgap Hobj.
    subst m. open_calls. unfold run_cbc. cbv zeta. do 2 step.
    unfold bind at 1, time_time at 1. step.
    unfold bind at 1, time_time at 1. do 2 step. reflexivity.
Qed.

Lemma unguarded_read_error_leaves_adapter_witness :
  (run_pyscipopt
     (with_scip (scip_queries (returns PNone) (fails "Warning" "no solution"))
        demo_env) "model.mps" 10 fresh_world).1
  = Raise (LibraryError "Warning" "no solution") /\
  (run_cbc (with_cbc cbc_gap_fails demo_env) "model.mps" 10 fresh_world).1
  = Raise (LibraryError "Exception" "no solution").
Proof.
  destruct unguarded_read_error_leaves_adapter as (Hs & Hc & _).
  split.
  - rewrite (Hs (with_scip (scip_queries (returns PNone)
                              (fails "Warning" "no solution")) demo_env)
                "model.mps" 10%Z fresh_world
                (LibraryError "Warning" "no solution")).
    + reflexivity.
    + exact I.
    + repeat split; eexists; reflexivity.
    + repeat split; eexists; reflexivity.
    + reflexivity.
  - rewrite (Hc (with_cbc cbc_gap_fails demo_env) "model.mps" 10%Z fresh_world
                (LibraryError "Exception" "no solution")).
    + reflexivity.
    + exact I.
    + repeat split; eexists; reflexivity.
    + reflexivity.
Defined.
